(** * parade.server.dash.chart: the [CustomChart] base class

    A shallow embedding of [src/parade/server/dash/chart/__init__.py].

    Python objects live in an explicit store: lists, dictionaries, plotly
    objects and chart instances are allocated at locations and referred to
    through [VRef], so that two names for one object (the class-level
    [annotations] list seen from two instances, an override value placed in a
    layout) observe each other's mutations.  Methods are computations in a
    state-and-exception monad over that store; a raised exception keeps the
    store as it was at the [raise].

    What is typed where Python is not: [title] and the two labels are
    strings, subscripts are strings or integers, and [layout_overrides] is a
    sequence of triples whose sub key is optional.  Floats are carried as
    literals and never computed with.  plotly and [validate] are
    collaborators the module imports; they are parameters of the
    development ([Collaborators]). *)

From Stdlib Require Import ZArith Floats.PrimFloat.
From stdpp Require Import gmap strings list fin_maps.

#[local] Set Warnings "-inexact-float".
#[local] Open Scope Z_scope.
#[local] Open Scope string_scope.

(** ** Values *)

(** Subscripts: the code subscripts with strings (['x'], ['range'], parent and
    sub keys of an override); integers are the other subscript a list takes. *)
Inductive key :=
  | KStr (s : string)
  | KInt (z : Z).

#[global] Instance key_eq_dec : EqDecision key.
Proof. solve_decision. Defined.

#[global] Instance key_countable : Countable key.
Proof.
  refine (inj_countable'
            (λ k, match k with KStr s => inl s | KInt z => inr z end)
            (λ x, match x with inl s => KStr s | inr z => KInt z end) _).
  by intros [].
Defined.

#[global] Instance key_inhabited : Inhabited key := populate (KStr "").

Abbreviation loc := nat.

Inductive value :=
  | VNone
  | VBool (b : bool)
  | VInt (z : Z)
  | VFloat (f : float)
  | VStr (s : string)
  | VRef (l : loc).

(** One entry of [layout_overrides]: [(parent_key, sub_key, value)], the
    sub key being [None] for a wholesale replacement. *)
Definition override : Type := key * option key * value.

(** The attributes an instance carries in its own [__dict__].  [__init__]
    binds the first three; [_axis_range] and [annotations] are class
    attributes, bound on the instance only once assigned through it. *)
Record instance := Instance {
  title : string;
  labels : value;
  layout_overrides : list override;
  inst_axis_range : option value;
  inst_annotations : option value;
}.

Inductive exn :=
  | KeyError (k : key)
  | IndexError
  | TypeError
  | ValueError
  | AttributeError
  | RuntimeError (msg : string)
  | NotImplementedError (msg : string)
  | SystemError
  | OtherError (name : string).

Inductive result (A : Type) :=
  | Ok (a : A)
  | Raise (e : exn).
Arguments Ok {A} a.
Arguments Raise {A} e.

(** ** The axis-range schema (lines 17-28) *)

Record field_rule := FieldRule {
  items : list (list string);
  required : bool;
  type : string;
}.

Definition schema : Type := list (string * field_rule).

Definition _axis_range_schema : schema :=
  [ ("x", {| items := [ ["integer"; "float"; "string"]; ["integer"; "float"; "string"] ];
             required := false;
             type := "list" |});
    ("y", {| items := [ ["integer"; "float"]; ["integer"; "float"] ];
             required := false;
             type := "list" |}) ].

(** What [validate] returns: field names with a description each; empty when
    the document conforms.  [if errors:] is Python truthiness of a
    collection. *)
Definition errors : Type := list (key * string).

Definition truthy (e : errors) : bool :=
  match e with [] => false | _ :: _ => true end.

(** Python's [s[i]] / [l[i]] index normalisation: [-len <= i < len]. *)
Definition norm_index (len : nat) (i : Z) : option nat :=
  if decide (0 ≤ i < Z.of_nat len) then Some (Z.to_nat i)
  else if decide (- Z.of_nat len ≤ i < 0) then Some (Z.to_nat (Z.of_nat len + i))
  else None.

(** [s == v] for a string [s]: only an equal string compares equal. *)
Definition eq_str (s : string) (v : value) : bool :=
  match v with VStr t => String.eqb s t | _ => false end.

(** [s in t] on two strings. *)
Definition str_contains (s t : string) : bool :=
  match String.index 0 s t with Some _ => true | None => false end.

Section Store.

(** plotly's object model is external: its objects are opaque here. *)
Variable Native : Type.

Inductive obj :=
  | OList (vs : list value)
  | ODict (d : gmap key value)
  | ONative (n : Native)
  | OInst (i : instance).

(** The store, and the two mutable class attributes of [CustomChart]
    (lines 9 and 16). *)
Record state := State {
  heap : list obj;
  cls_annotations : value;
  cls_axis_range : value;
}.

Definition set_heap (h : list obj) (σ : state) : state :=
  {| heap := h; cls_annotations := cls_annotations σ; cls_axis_range := cls_axis_range σ |}.

(** State after the class body has run: [annotations = []], [_axis_range = {}]. *)
Definition module_state : state :=
  {| heap := [OList []; ODict ∅]; cls_annotations := VRef 0%nat; cls_axis_range := VRef 1%nat |}.

(** ** The monad *)

Definition M (A : Type) : Type := state → result A * state.

#[global] Instance M_ret : MRet M := λ A a σ, (Ok a, σ).

#[global] Instance M_bind : MBind M := λ A B k m σ,
  match m σ with
  | (Ok a, σ') => k a σ'
  | (Raise e, σ') => (Raise e, σ')
  end.

#[global] Instance M_fmap : FMap M := λ A B f m, a ← m; mret (f a).

Definition raise {A} (e : exn) : M A := λ σ, (Raise e, σ).
Definition lift {A} (r : result A) : M A := λ σ, (r, σ).
Definition get_state : M state := λ σ, (Ok σ, σ).

Fixpoint for_each {A} (xs : list A) (body : A → M unit) : M unit :=
  match xs with
  | [] => mret tt
  | x :: rest => body x;; for_each rest body
  end.

(** ** Store primitives *)

Definition alloc (o : obj) : M loc :=
  λ σ, (Ok (length (heap σ)), set_heap (heap σ ++ [o]) σ).

(** Python has no dangling reference; the lookup of one is a [SystemError]. *)
Definition deref (l : loc) : M obj :=
  λ σ, match heap σ !! l with
       | Some o => (Ok o, σ)
       | None => (Raise SystemError, σ)
       end.

Definition store (l : loc) (o : obj) : M unit :=
  λ σ, (Ok tt, set_heap (<[l := o]> (heap σ)) σ).

End Store.

Arguments OList {Native} vs.
Arguments ODict {Native} d.
Arguments ONative {Native} n.
Arguments OInst {Native} i.
Arguments heap {Native} σ : rename.
Arguments cls_annotations {Native} σ : rename.
Arguments cls_axis_range {Native} σ : rename.
Arguments set_heap {Native} h σ.
Arguments module_state {Native}.
Arguments raise {Native A} e.
Arguments lift {Native A} r.
Arguments get_state {Native}.
Arguments for_each {Native A} xs body.
Arguments alloc {Native} o.
Arguments deref {Native} l.
Arguments store {Native} l o.

(** ** Validation *)

Section Validate.

Context {Native : Type}.

(** A value against one type name of a schema. *)
Definition type_is (σ : state Native) (t : string) (v : value) : bool :=
  match v with
  | VNone => false
  | VBool _ => String.eqb t "boolean"
  | VInt _ => String.eqb t "integer"
  | VFloat _ => String.eqb t "float"
  | VStr _ => String.eqb t "string"
  | VRef l =>
      match heap σ !! l with
      | Some (OList _) => String.eqb t "list"
      | Some (ODict _) => String.eqb t "dict"
      | _ => false
      end
  end.

Definition check_item (σ : state Native) (name : string)
    (p : list string * value) : errors :=
  if existsb (λ t, type_is σ t p.2) p.1 then []
  else [(KStr name, "item is not of a permitted type")].

Definition check_field (σ : state Native) (name : string) (r : field_rule)
    (v : value) : errors :=
  if negb (type_is σ (type r) v) then [(KStr name, "value is not of the required type")]
  else
    match v with
    | VRef l =>
        match heap σ !! l with
        | Some (OList vs) =>
            if negb (length vs =? length (items r))%nat
            then [(KStr name, "wrong number of items")]
            else flat_map (check_item σ name) (zip (items r) vs)
        | _ => []
        end
    | _ => []
    end.

Definition in_schema (sch : schema) (k : key) : bool :=
  existsb (λ p, bool_decide (k = KStr p.1)) sch.

Definition check_known (sch : schema) (p : key * value) : errors :=
  if in_schema sch p.1 then [] else [(p.1, "unknown field")].

Definition check_rule (σ : state Native) (d : gmap key value)
    (p : string * field_rule) : errors :=
  match d !! KStr p.1 with
  | Some v => check_field σ p.1 p.2 v
  | None => if required p.2 then [(KStr p.1, "required field")] else []
  end.

(** Modelled from the spec: [validate(value, schema)] of [..utils], which the
    sources import but do not contain.  Given a value and a declarative
    schema (key -> type, arity, required) it returns a possibly empty
    collection of error descriptions: one for each key of the document the
    schema does not know, one for each required key that is absent, and for
    each present key one when the value is not of the rule's type, has not
    as many elements as the rule has items, or has an element of a type its
    item does not permit.  A document that is not a mapping is one error. *)
Definition schema_validate (σ : state Native) (doc : value) (sch : schema)
    : result errors :=
  match doc with
  | VRef l =>
      match heap σ !! l with
      | Some (ODict d) =>
          Ok (flat_map (check_known sch) (map_to_list d)
                ++ flat_map (check_rule σ d) sch)%list
      | _ => Ok [(KStr "", "document is not a mapping")]
      end
  | _ => Ok [(KStr "", "document is not a mapping")]
  end.

(** A bound of an axis range: two values, each accepted by [p]. *)
Definition bounds_ok (σ : state Native) (p : value → bool) (v : value) : bool :=
  match v with
  | VRef l =>
      match heap σ !! l with
      | Some (OList [a; b]) => p a && p b
      | _ => false
      end
  | _ => false
  end.

Definition numeric (v : value) : bool :=
  match v with VInt _ | VFloat _ => true | _ => false end.

Definition numeric_or_string (v : value) : bool :=
  match v with VInt _ | VFloat _ | VStr _ => true | _ => false end.

(** A mapping with none, one or both of the keys [x] and [y] and no other,
    whose [x] bounds satisfy [px] and whose [y] bounds satisfy [py]. *)
Definition axis_range_ok (σ : state Native) (px py : value → bool) (v : value) : bool :=
  match v with
  | VRef l =>
      match heap σ !! l with
      | Some (ODict d) =>
          bool_decide (dom d ⊆ {[KStr "x"; KStr "y"]})
          && from_option (bounds_ok σ px) true (d !! KStr "x")
          && from_option (bounds_ok σ py) true (d !! KStr "y")
      | _ => false
      end
  | _ => false
  end.

(** Valid in the words of the specification: every bound numeric or string. *)
Definition spec_valid (σ : state Native) (v : value) : bool :=
  axis_range_ok σ numeric_or_string numeric_or_string v.

(** Valid by [_axis_range_schema]: the [y] bounds are numeric. *)
Definition schema_valid (σ : state Native) (v : value) : bool :=
  axis_range_ok σ numeric_or_string numeric v.

End Validate.

(** ** The collaborators *)

(** What the module takes from outside: plotly's objects with their item
    protocol, [go.layout.Title(text=...)] and [go.Layout(...)] (the latter
    reads the mapping it is given out of the store and may reject it), and
    [validate] of [..utils], which reads the document out of the store and
    returns the error collection; [format_errors] renders that collection in
    the f-string of line 44. *)
Class Collaborators := {
  Native : Type;
  native_getitem : Native → key → result value;
  native_contains : Native → string → result bool;
  native_setitem : Native → key → value → result Native;
  go_layout_Title : string → Native;
  go_Layout : state Native → value → result Native;
  validate : state Native → value → schema → result errors;
  format_errors : errors → string;
}.

Section Chart.

Context `{Collaborators}.

Abbreviation state := (state Native).
Abbreviation M := (M Native).
Abbreviation obj := (obj Native).

(** ** Subscription, membership, item assignment *)

Definition py_getitem (c : value) (k : key) : M value :=
  match c with
  | VRef l =>
      o ← deref l;
      match o with
      | ODict d =>
          match d !! k with
          | Some v => mret v
          | None => raise (KeyError k)
          end
      | OList vs =>
          match k with
          | KInt i =>
              match norm_index (length vs) i ≫= (vs !!.) with
              | Some v => mret v
              | None => raise IndexError
              end
          | KStr _ => raise TypeError
          end
      | ONative n => lift (native_getitem n k)
      | OInst _ => raise TypeError
      end
  | VStr s =>
      match k with
      | KInt i =>
          match norm_index (String.length s) i ≫= (λ n, String.get n s) with
          | Some a => mret (VStr (String a EmptyString))
          | None => raise IndexError
          end
      | KStr _ => raise TypeError
      end
  | _ => raise TypeError
  end.

(** [s in c] for a string [s]. *)
Definition py_contains (s : string) (c : value) : M bool :=
  match c with
  | VRef l =>
      o ← deref l;
      match o with
      | ODict d => mret (bool_decide (is_Some (d !! KStr s)))
      | OList vs => mret (existsb (eq_str s) vs)
      | ONative n => lift (native_contains n s)
      | OInst _ => raise TypeError
      end
  | VStr t => mret (str_contains s t)
  | _ => raise TypeError
  end.

Definition py_setitem (c : value) (k : key) (v : value) : M unit :=
  match c with
  | VRef l =>
      o ← deref l;
      match o with
      | ODict d => store l (ODict (<[k := v]> d))
      | OList vs =>
          match k with
          | KInt i =>
              match norm_index (length vs) i with
              | Some n => store l (OList (<[n := v]> vs))
              | None => raise IndexError
              end
          | KStr _ => raise TypeError
          end
      | ONative n =>
          n' ← lift (native_setitem n k v);
          store l (ONative n')
      | OInst _ => raise TypeError
      end
  | _ => raise TypeError
  end.

(** ** Attribute access *)

Definition get_inst (self : loc) : M instance :=
  o ← deref self;
  match o with
  | OInst i => mret i
  | _ => raise AttributeError
  end.

Definition get_title (self : loc) : M string := title <$> get_inst self.
Definition get_labels (self : loc) : M value := labels <$> get_inst self.
Definition get_layout_overrides (self : loc) : M (list override) :=
  layout_overrides <$> get_inst self.

(** [self.annotations]: the instance's own binding, else the class attribute
    of line 9. *)
Definition get_annotations (self : loc) : M value :=
  i ← get_inst self;
  match inst_annotations i with
  | Some v => mret v
  | None => cls_annotations <$> get_state
  end.

(** [self._axis_range]: the instance's own binding, else the class attribute
    of line 16. *)
Definition get__axis_range (self : loc) : M value :=
  i ← get_inst self;
  match inst_axis_range i with
  | Some v => mret v
  | None => cls_axis_range <$> get_state
  end.

(** [self.annotations = v] and [self._axis_range = v] bind on the instance. *)
Definition set_annotations (self : loc) (v : value) : M unit :=
  i ← get_inst self;
  store self (OInst {| title := title i; labels := labels i;
                       layout_overrides := layout_overrides i;
                       inst_axis_range := inst_axis_range i;
                       inst_annotations := Some v |}).

Definition set__axis_range (self : loc) (v : value) : M unit :=
  i ← get_inst self;
  store self (OInst {| title := title i; labels := labels i;
                       layout_overrides := layout_overrides i;
                       inst_axis_range := Some v;
                       inst_annotations := inst_annotations i |}).

(** [lst.append(v)] *)
Definition list_append (c : value) (v : value) : M unit :=
  match c with
  | VRef l =>
      o ← deref l;
      match o with
      | OList vs => store l (OList (vs ++ [v])%list)
      | _ => raise AttributeError
      end
  | _ => raise AttributeError
  end.

(** ** The class *)

(** The two methods a subclass overrides.  [create_layout] and
    [apply_custom_layout] below are the base class's. *)
Record chart_class := ChartClass {
  create_traces : loc → value → list (string * value) → M value;
  initialize_mutables : loc → M unit;
}.

Definition CustomChart : chart_class :=
  {| create_traces := λ _ _ _,
       raise (NotImplementedError "create_traces must be implemented by child class");
     initialize_mutables := λ _, mret tt |}.

(** A subclass that overrides [create_traces] by [traces] and nothing else. *)
Definition Subclass (traces : loc → value → list (string * value) → M value)
    : chart_class :=
  {| create_traces := traces; initialize_mutables := initialize_mutables CustomChart |}.

(** A subclass whose hook does [self.annotations = []]. *)
Definition OwnAnnotations (traces : loc → value → list (string * value) → M value)
    : chart_class :=
  {| create_traces := traces;
     initialize_mutables := λ self,
       l ← alloc (OList []);
       set_annotations self (VRef l) |}.

(** The [axis_range] property (lines 30-46). *)
Definition axis_range (self : loc) : M value := get__axis_range self.

Definition axis_range_setter (self : loc) (axis_range : value) : M unit :=
  _ ← get_inst self;
  σ ← get_state;
  errors ← lift (validate σ axis_range _axis_range_schema);
  if truthy errors
  then raise (RuntimeError
                (String.append "Validation of self.axis_range failed: " (format_errors errors)))
  else set__axis_range self axis_range.

Definition dict_of (l : list (string * value)) : gmap key value :=
  list_to_map (prod_map KStr id <$> l).

(** [CustomChart(title=..., xlabel=..., ylabel=..., layout_overrides=...)]:
    the new object with the attributes [__init__] binds (lines 58-60), then
    the hook (line 61). *)
Definition __init__ (C : chart_class) (title xlabel ylabel : string)
    (layout_overrides : list override) : M loc :=
  lbl ← alloc (ODict (dict_of [("x", VStr xlabel); ("y", VStr ylabel)]));
  self ← alloc (OInst {| title := title; labels := VRef lbl;
                         layout_overrides := layout_overrides;
                         inst_axis_range := None; inst_annotations := None |});
  initialize_mutables C self;;
  mret self.

(** The body of the loop of lines 122-127, for one [axis]. *)
Definition create_layout_axis (self : loc) (layout : value) (axis : string) : M unit :=
  let axis_name := String.append axis "axis" in
  ar ← axis_range self;
  b ← py_contains axis ar;
  if b : bool then
    ar ← axis_range self;
    r ← py_getitem ar (KStr axis);
    ax ← py_getitem layout (KStr axis_name);
    py_setitem ax (KStr "range") r
  else
    ax ← py_getitem layout (KStr axis_name);
    py_setitem ax (KStr "autorange") (VBool true).

(** [create_layout] (lines 98-129). *)
Definition create_layout (self : loc) : M value :=
  ann ← get_annotations self;
  t ← get_title self;
  ttl ← alloc (ONative (go_layout_Title t));
  lbl ← get_labels self;
  lx ← py_getitem lbl (KStr "x");
  xaxis ← alloc (ODict (dict_of [("automargin", VBool true); ("title", lx)]));
  lbl ← get_labels self;
  ly ← py_getitem lbl (KStr "y");
  yaxis ← alloc (ODict (dict_of [("automargin", VBool true); ("title", ly);
                                 ("zeroline", VBool true)]));
  legend ← alloc (ODict (dict_of [("orientation", VStr "h"); ("y", VFloat (-0.25))]));
  layout ← alloc (ODict (dict_of [("annotations", ann); ("title", VRef ttl);
                                  ("xaxis", VRef xaxis); ("yaxis", VRef yaxis);
                                  ("legend", VRef legend); ("hovermode", VStr "closest")]));
  for_each ["x"; "y"] (create_layout_axis self (VRef layout));;
  mret (VRef layout).

(** [apply_custom_layout] (lines 131-147). *)
Definition apply_override (layout : value) (o : override) : M unit :=
  let '(parent_key, sub_key, value) := o in
  match sub_key with
  | Some sub_key =>
      p ← py_getitem layout parent_key;
      py_setitem p sub_key value
  | None => py_setitem layout parent_key value
  end.

Definition apply_custom_layout (self : loc) (layout : value) : M value :=
  ovs ← get_layout_overrides self;
  for_each ovs (apply_override layout);;
  mret layout.

(** [create_figure] (lines 67-81). *)
Definition create_figure (C : chart_class) (self : loc) (df_raw : value)
    (kwargs_data : list (string * value)) : M value :=
  data ← create_traces C self df_raw kwargs_data;
  l0 ← create_layout self;
  l1 ← apply_custom_layout self l0;
  σ ← get_state;
  n ← lift (go_Layout σ l1);
  lay ← alloc (ONative n);
  fig ← alloc (ODict (dict_of [("data", data); ("layout", VRef lay)]));
  mret (VRef fig).

(** ** Two instances and one annotation *)

(** The elements of the list [v] refers to. *)
Definition list_items (v : value) : M (list value) :=
  match v with
  | VRef l =>
      o ← deref l;
      match o with
      | OList vs => mret vs
      | _ => raise TypeError
      end
  | _ => raise TypeError
  end.

(** [a = C(...); b = C(...)] with the same arguments, then
    [a.annotations.append(note)]: the elements of [b.annotations] before and
    after the append. *)
Definition append_to_first (C : chart_class) (title xlabel ylabel : string)
    (layout_overrides : list override) (note : value)
    : M (list value * list value) :=
  a ← __init__ C title xlabel ylabel layout_overrides;
  b ← __init__ C title xlabel ylabel layout_overrides;
  before ← get_annotations b ≫= list_items;
  anns ← get_annotations a;
  list_append anns note;;
  after ← get_annotations b ≫= list_items;
  mret (before, after).

(** ** Reading the store *)

(** [v[k]] as a pure read: [None] when [v] is not a dictionary or has no
    such key. *)
Definition lookup_dict (σ : state) (v : value) (k : string) : option value :=
  match v with
  | VRef l =>
      match heap σ !! l with
      | Some (ODict d) => d !! KStr k
      | _ => None
      end
  | _ => None
  end.

(** [v[k1][k2]] *)
Definition lookup_dict2 (σ : state) (v : value) (k1 k2 : string) : option value :=
  lookup_dict σ v k1 ≫= λ w, lookup_dict σ w k2.

Definition is_dict (σ : state) (v : value) : bool :=
  match v with
  | VRef l => match heap σ !! l with Some (ODict _) => true | _ => false end
  | _ => false
  end.

(** What [self.axis_range] evaluates to, as a pure read. *)
Definition axis_range_of (σ : state) (i : instance) : value :=
  default (cls_axis_range σ) (inst_axis_range i).

Definition annotations_of (σ : state) (i : instance) : value :=
  default (cls_annotations σ) (inst_annotations i).

(** The data model of the chart at [self]: an instance whose [labels] is a
    mapping with keys [x] and [y] (as [__init__] builds it) and whose
    [axis_range] is a mapping. *)
Definition wf_chart (σ : state) (self : loc) : bool :=
  match heap σ !! self with
  | Some (OInst i) =>
      bool_decide (is_Some (lookup_dict σ (labels i) "x"))
      && bool_decide (is_Some (lookup_dict σ (labels i) "y"))
      && is_dict σ (axis_range_of σ i)
  | _ => false
  end.

(** The store extended by freshly allocated objects. *)
Definition ext (σ : state) (l : list obj) : state := set_heap (heap σ ++ l) σ.

(** [σ'] has every object and class attribute of [σ] as it was, and
    possibly new objects. *)
Definition extends (σ σ' : state) : Prop := ∃ l, σ' = ext σ l.

(** What a reference refers to. *)
Definition referent (σ : state) (v : value) : option obj :=
  match v with
  | VRef l => heap σ !! l
  | _ => None
  end.

(** The state of the chart at [self] as a caller observes it: each
    attribute with the object it refers to. *)
Definition chart_view (σ : state) (self : loc)
    : option (string * (value * option obj) * list (override * option obj)
              * (value * option obj) * (value * option obj)) :=
  match heap σ !! self with
  | Some (OInst i) =>
      Some (title i,
            (labels i, referent σ (labels i)),
            (λ o, (o, referent σ o.2)) <$> layout_overrides i,
            (axis_range_of σ i, referent σ (axis_range_of σ i)),
            (annotations_of σ i, referent σ (annotations_of σ i)))
  | _ => None
  end.

(** No attribute of the chart at [self] is a dangling reference. *)
Definition bound_ref (σ : state) (v : value) : bool :=
  match v with
  | VRef l => bool_decide (l < length (heap σ))%nat
  | _ => true
  end.

Definition chart_closed (σ : state) (self : loc) : bool :=
  match heap σ !! self with
  | Some (OInst i) =>
      bound_ref σ (labels i)
      && forallb (λ o : override, bound_ref σ o.2) (layout_overrides i)
      && bound_ref σ (axis_range_of σ i)
      && bound_ref σ (annotations_of σ i)
  | _ => true
  end.

(** The overrides with a sub key all patch an object [create_layout] has
    just built: none names the parent key [annotations], whose value is the
    instance's own list, or a parent key in [replaced], those an earlier
    override has rebound to a value of the caller. *)
Fixpoint sub_keys_on_fresh (replaced : list key) (ovs : list override) : bool :=
  match ovs with
  | [] => true
  | (parent_key, None, _) :: rest => sub_keys_on_fresh (parent_key :: replaced) rest
  | (parent_key, Some _, _) :: rest =>
      negb (bool_decide (parent_key = KStr "annotations"))
      && negb (bool_decide (parent_key ∈ replaced))
      && sub_keys_on_fresh replaced rest
  end.

(** ** Closed forms and frames *)

(** The layout mapping as [create_layout] allocates it. *)
Definition layout_dict (n : nat) (ann : value) : gmap key value :=
  dict_of [("annotations", ann); ("title", VRef n);
           ("xaxis", VRef (n + 1)); ("yaxis", VRef (n + 2));
           ("legend", VRef (n + 3)); ("hovermode", VStr "closest")].

(** The axis dictionary after the loop of lines 122-127. *)
Definition with_range (da : gmap key value) (axis : string) (d : gmap key value)
    : gmap key value :=
  match da !! KStr axis with
  | Some r => <[KStr "range" := r]> d
  | None => <[KStr "autorange" := VBool true]> d
  end.

(** The five objects [create_layout] allocates, in allocation order: the
    title, the x axis, the y axis, the legend, the layout. *)
Definition layout_objects (n : nat) (t : string) (lx ly ann : value)
    (da : gmap key value) : list obj :=
  [ ONative (go_layout_Title t);
    ODict (with_range da "x" (dict_of [("automargin", VBool true); ("title", lx)]));
    ODict (with_range da "y" (dict_of [("automargin", VBool true); ("title", ly);
                                       ("zeroline", VBool true)]));
    ODict (dict_of [("orientation", VStr "h"); ("y", VFloat (-0.25))]);
    ODict (layout_dict n ann) ].

(** A computation that reads the store at most. *)
Definition pure {A} (m : M A) : Prop := ∀ σ, (m σ).2 = σ.

(** A value an item assignment cannot reach an older object, or the layout
    itself, through: no reference, or a reference to an object allocated
    since the store had [n] objects, other than the fifth. *)
Definition fresh_target (n : nat) (w : value) : Prop :=
  match w with
  | VRef m => (n ≤ m ∧ m ≠ n + 4)%nat
  | _ => True
  end.

(** ** Overrides that replace, and what a call leaves of the store's shape *)

(** Every override of the sequence replaces wholesale ([sub_key is None]). *)
Definition wholesale (ovs : list override) : bool :=
  forallb (λ o : override, bool_decide (o.1.2 = None)) ovs.

(** [d[parent_key] = value] for each override in turn. *)
Definition replace_all (d : gmap key value) (ovs : list override) : gmap key value :=
  foldl (λ d (o : override), <[o.1.1 := o.2]> d) d ovs.

(** As many objects, and the class attributes bound as they were. *)
Definition same_size (σ σ' : state) : Prop :=
  length (heap σ') = length (heap σ)
  ∧ cls_annotations σ' = cls_annotations σ
  ∧ cls_axis_range σ' = cls_axis_range σ.

(** A value that is no reference: [None], a boolean, a number, a string. *)
Definition scalar (v : value) : bool :=
  match v with VRef _ => false | _ => true end.

(** [ar = a.axis_range; ar[k] = v], then [b.axis_range]. *)
Definition assign_item_through_getter (a b : loc) (k : key) (v : value) : M value :=
  ar ← axis_range a;
  py_setitem ar k v;;
  axis_range b.

End Chart.


(** ** An instance of the collaborators to run the model on *)

Inductive plotly :=
  | PTitle (text : value)
  | PLayout (d : gmap key value).

Definition reference : Collaborators :=
  {| Native := plotly;
     native_getitem := λ n k,
       match n with
       | PTitle t => if bool_decide (k = KStr "text") then Ok t else Raise ValueError
       | PLayout d => from_option Ok (Raise ValueError) (d !! k)
       end;
     native_contains := λ n s,
       match n with
       | PTitle _ => Ok (String.eqb s "text")
       | PLayout d => Ok (bool_decide (is_Some (d !! KStr s)))
       end;
     native_setitem := λ n k v,
       match n with
       | PTitle _ => if bool_decide (k = KStr "text") then Ok (PTitle v) else Raise ValueError
       | PLayout d => Ok (PLayout (<[k := v]> d))
       end;
     go_layout_Title := λ s, PTitle (VStr s);
     go_Layout := λ σ v,
       match v with
       | VRef l =>
           match heap σ !! l with
           | Some (ODict d) => Ok (PLayout d)
           | _ => Raise ValueError
           end
       | _ => Raise ValueError
       end;
     validate := schema_validate;
     format_errors := λ e, String.concat "; " (snd <$> e) |}.

(** ** Example charts *)

(** A subclass whose [create_traces] returns a fixed three-point list. *)
Definition three_points : loc → value → list (string * value) → M plotly value :=
  λ _ _ _, l ← alloc (OList [VInt 1; VInt 2; VInt 3]); mret (VRef l).

Definition SalesChart : chart_class (H := reference) :=
  Subclass (H := reference) three_points.

(** [SalesChart(title="Sales", xlabel="Date", ylabel="Units",
    layout_overrides=ovs)], built right after the module is loaded: the
    chart is the object at location 3. *)
Definition sales_state (ovs : list override) : state plotly :=
  (__init__ (H := reference) SalesChart "Sales" "Date" "Units" ovs module_state).2.

(** The store after the right-hand side of [chart.axis_range = {axis: [a, b]}]
    has been evaluated: the bounds at location 4, the mapping at 5. *)
Definition with_axis_range_literal (axis : string) (a b : value) : state plotly :=
  ((bounds ← alloc (OList [a; b]);
    alloc (ODict (dict_of [(axis, VRef bounds)]))) (sales_state [])).2.

(** The chart after [chart.axis_range = {"x": [0, 10]}]. *)
Definition ranged_state : state plotly :=
  (axis_range_setter (H := reference) 3 (VRef 5)
     (with_axis_range_literal "x" (VInt 0) (VInt 10))).2.

(** A chart whose first override replaces the legend by a mapping of the
    caller, at location 2, and whose second patches [legend.y]. *)
Definition aliased_state : state plotly :=
  ((d ← alloc (ODict (dict_of [("x", VFloat 0.5)]));
    __init__ (H := reference) SalesChart "Sales" "Date" "Units"
      [(KStr "legend", None, VRef d); (KStr "legend", Some (KStr "y"), VFloat (-0.1))])
     module_state).2.

(** [layout_overrides[0][2]["y"]] as the chart at [self] sees it. *)
Definition first_override_y (σ : state plotly) (self : loc) : option value :=
  match heap σ !! self with
  | Some (OInst i) =>
      match layout_overrides i with
      | (_, _, v) :: _ => lookup_dict (H := reference) σ v "y"
      | [] => None
      end
  | _ => None
  end.

(** A subclass whose [create_traces] appends a point to the data it is
    given, in place, and returns it. *)
Definition append_point : loc → value → list (string * value) → M plotly value :=
  λ _ df_raw _, list_append (H := reference) df_raw (VInt 4);; mret df_raw.

Definition TallyChart : chart_class (H := reference) :=
  Subclass (H := reference) append_point.

(** A [TallyChart] at location 3, with a patch of [legend.y] and a new
    title as overrides, and the data [[1, 2, 3]] at location 4. *)
Definition tally_state : state plotly :=
  ((__init__ (H := reference) TallyChart "Sales" "Date" "Units"
      [(KStr "legend", Some (KStr "y"), VFloat (-0.1));
       (KStr "title", None, VStr "New Title")];;
    alloc (OList [VInt 1; VInt 2; VInt 3])) module_state).2.

(** The Sales chart with overrides [ovs], after [create_layout]: the layout
    is the object at location 8, its title, axes and legend at 4 to 7. *)
Definition sales_layout_state (ovs : list override) : state plotly :=
  (create_layout (H := reference) 3 (sales_state ovs)).2.

(** The Sales chart after [del chart.labels["x"]]. *)
Definition unlabelled_state : state plotly :=
  set_heap (<[2%nat := ODict (dict_of [("y", VStr "Units")])]> (heap (sales_state [])))
    (sales_state []).

(** The bounds [[0, 10]] at location 2, then the Sales chart, at location 4,
    with the override [("xaxis", "range", bounds)]. *)
Definition range_override_state : state plotly :=
  ((bounds ← alloc (OList [VInt 0; VInt 10]);
    __init__ (H := reference) SalesChart "Sales" "Date" "Units"
      [(KStr "xaxis", Some (KStr "range"), VRef bounds)])
     module_state).2.

(** The Sales chart with the override [("annotations", idx, "new")], after
    [chart.annotations.append("old")]. *)
Definition annotated_state (idx : Z) : state plotly :=
  ((anns ← get_annotations (H := reference) 3;
    list_append (H := reference) anns (VStr "old"))
     (sales_state [(KStr "annotations", Some (KInt idx), VStr "new")])).2.

(** Two Sales charts, at locations 3 and 5. *)
Definition two_charts_state : state plotly :=
  (__init__ (H := reference) SalesChart "Sales" "Date" "Units" [] (sales_state [])).2.

Arguments same_size {_} σ σ'.
Arguments ext {_} σ l.
Arguments extends {_} σ σ'.
Arguments referent {_} σ v.
Arguments chart_view {_} σ self.
Arguments chart_closed {_} σ self.
Arguments bound_ref {_} σ v.
Arguments layout_objects {_} n t lx ly ann da.
Arguments pure {_ A} m.
Arguments wf_chart {_} σ self.
Arguments lookup_dict {_} σ v k.
Arguments lookup_dict2 {_} σ v k1 k2.
Arguments is_dict {_} σ v.

(** * Properties *)

Section Properties.

Context `{Collaborators}.

Abbreviation state := (state Native).
Abbreviation M := (M Native).
Abbreviation obj := (obj Native).

Implicit Types (σ : state) (l : list obj) (o : obj) (v : value).

(** ** Running the monad *)

Lemma bind_ok {A B} (m : M A) (k : A → M B) σ a σ' :
  m σ = (Ok a, σ') → (m ≫= k) σ = k a σ'.
Proof. intros E. unfold mbind, M_bind. by rewrite E. Qed.

Lemma bind_raise {A B} (m : M A) (k : A → M B) σ e σ' :
  m σ = (Raise e, σ') → (m ≫= k) σ = (Raise e, σ').
Proof. intros E. unfold mbind, M_bind. by rewrite E. Qed.

Lemma bind_cong {A B} (m m' : M A) (k : A → M B) σ :
  m σ = m' σ → (m ≫= k) σ = (m' ≫= k) σ.
Proof. intros E. unfold mbind, M_bind. by rewrite E. Qed.

Lemma fmap_ok {A B} (f : A → B) (m : M A) σ a σ' :
  m σ = (Ok a, σ') → (f <$> m) σ = (Ok (f a), σ').
Proof. intros E. unfold fmap, M_fmap. by rewrite (bind_ok _ _ _ _ _ E). Qed.

Lemma ext_nil σ : ext σ [] = σ.
Proof. destruct σ. unfold ext, set_heap. simpl. by rewrite app_nil_r. Qed.

Lemma ext_ext σ l l' : ext (ext σ l) l' = ext σ (l ++ l').
Proof. unfold ext, set_heap. simpl. by rewrite app_assoc. Qed.

Lemma alloc_ext σ l o :
  alloc o (ext σ l) = (Ok (length (heap σ) + length l)%nat, ext σ (l ++ [o])).
Proof. unfold alloc, ext, set_heap. simpl. by rewrite length_app, app_assoc. Qed.

Lemma deref_ext_new σ l k o :
  l !! k = Some o →
  deref (length (heap σ) + k)%nat (ext σ l) = (Ok o, ext σ l).
Proof.
  intros E. unfold deref, ext, set_heap. simpl.
  rewrite lookup_app_r by lia. by rewrite Nat.add_sub', E.
Qed.

Lemma deref_ext_old σ l a o :
  heap σ !! a = Some o →
  deref a (ext σ l) = (Ok o, ext σ l).
Proof.
  intros E. unfold deref, ext, set_heap. simpl.
  rewrite lookup_app_l by (by eapply lookup_lt_Some). by rewrite E.
Qed.

Lemma store_ext_new σ l k o :
  store (length (heap σ) + k)%nat o (ext σ l) = (Ok tt, ext σ (<[k := o]> l)).
Proof. unfold store, ext, set_heap. simpl. by rewrite insert_app_r. Qed.

Lemma get_inst_ext σ l self i :
  heap σ !! self = Some (OInst i) →
  get_inst self (ext σ l) = (Ok i, ext σ l).
Proof.
  intros E. unfold get_inst.
  by rewrite (bind_ok _ _ _ _ _ (deref_ext_old _ _ _ _ E)).
Qed.

Lemma get_title_ext σ l self i :
  heap σ !! self = Some (OInst i) →
  get_title self (ext σ l) = (Ok (title i), ext σ l).
Proof. intros E. unfold get_title. by rewrite (fmap_ok _ _ _ _ _ (get_inst_ext _ l _ _ E)). Qed.

Lemma get_labels_ext σ l self i :
  heap σ !! self = Some (OInst i) →
  get_labels self (ext σ l) = (Ok (labels i), ext σ l).
Proof. intros E. unfold get_labels. by rewrite (fmap_ok _ _ _ _ _ (get_inst_ext _ l _ _ E)). Qed.

Lemma get_layout_overrides_ext σ l self i :
  heap σ !! self = Some (OInst i) →
  get_layout_overrides self (ext σ l) = (Ok (layout_overrides i), ext σ l).
Proof.
  intros E. unfold get_layout_overrides.
  by rewrite (fmap_ok _ _ _ _ _ (get_inst_ext _ l _ _ E)).
Qed.

Lemma get_inst_plain σ self i :
  heap σ !! self = Some (OInst i) → get_inst self σ = (Ok i, σ).
Proof. intros E. rewrite <- (ext_nil σ). by apply get_inst_ext. Qed.

Lemma get_layout_overrides_plain σ self i :
  heap σ !! self = Some (OInst i) →
  get_layout_overrides self σ = (Ok (layout_overrides i), σ).
Proof. intros E. rewrite <- (ext_nil σ). by apply get_layout_overrides_ext. Qed.

Lemma get_annotations_ext σ l self i :
  heap σ !! self = Some (OInst i) →
  get_annotations self (ext σ l) = (Ok (annotations_of σ i), ext σ l).
Proof.
  intros E. unfold get_annotations.
  rewrite (bind_ok _ _ _ _ _ (get_inst_ext _ l _ _ E)).
  unfold annotations_of. by destruct (inst_annotations i).
Qed.

Lemma axis_range_ext σ l self i :
  heap σ !! self = Some (OInst i) →
  axis_range self (ext σ l) = (Ok (axis_range_of σ i), ext σ l).
Proof.
  intros E. unfold axis_range, get__axis_range.
  rewrite (bind_ok _ _ _ _ _ (get_inst_ext _ l _ _ E)).
  unfold axis_range_of. by destruct (inst_axis_range i).
Qed.

Lemma getitem_old_dict σ l a d k v :
  heap σ !! a = Some (ODict d) → d !! k = Some v →
  py_getitem (VRef a) k (ext σ l) = (Ok v, ext σ l).
Proof.
  intros E Ek. unfold py_getitem.
  rewrite (bind_ok _ _ _ _ _ (deref_ext_old _ l _ _ E)). by rewrite Ek.
Qed.

Lemma getitem_new_dict σ l j d k v :
  l !! j = Some (ODict d) → d !! k = Some v →
  py_getitem (VRef (length (heap σ) + j)%nat) k (ext σ l) = (Ok v, ext σ l).
Proof.
  intros E Ek. unfold py_getitem.
  rewrite (bind_ok _ _ _ _ _ (deref_ext_new σ _ _ _ E)). by rewrite Ek.
Qed.

Lemma getitem_new_dict_missing σ l j d k :
  l !! j = Some (ODict d) → d !! k = None →
  py_getitem (VRef (length (heap σ) + j)%nat) k (ext σ l) = (Raise (KeyError k), ext σ l).
Proof.
  intros E Ek. unfold py_getitem.
  rewrite (bind_ok _ _ _ _ _ (deref_ext_new σ _ _ _ E)). by rewrite Ek.
Qed.

Lemma contains_old_dict σ l a d s :
  heap σ !! a = Some (ODict d) →
  py_contains s (VRef a) (ext σ l) = (Ok (bool_decide (is_Some (d !! KStr s))), ext σ l).
Proof.
  intros E. unfold py_contains.
  by rewrite (bind_ok _ _ _ _ _ (deref_ext_old _ l _ _ E)).
Qed.

Lemma setitem_new_dict σ l j d k v :
  l !! j = Some (ODict d) →
  py_setitem (VRef (length (heap σ) + j)%nat) k v (ext σ l)
  = (Ok tt, ext σ (<[j := ODict (<[k := v]> d)]> l)).
Proof.
  intros E. unfold py_setitem.
  rewrite (bind_ok _ _ _ _ _ (deref_ext_new σ _ _ _ E)). apply store_ext_new.
Qed.

(** ** The standard layout in closed form *)

Lemma create_layout_closed σ self i ll dl lx ly la da :
  heap σ !! self = Some (OInst i) →
  labels i = VRef ll → heap σ !! ll = Some (ODict dl) →
  dl !! KStr "x" = Some lx → dl !! KStr "y" = Some ly →
  axis_range_of σ i = VRef la → heap σ !! la = Some (ODict da) →
  create_layout self σ
  = (Ok (VRef (length (heap σ) + 4)),
     ext σ (layout_objects (length (heap σ)) (title i) lx ly (annotations_of σ i) da)).
Proof.
  intros Hi Hl Hll Hx Hy Ha Hla.
  rewrite <- (ext_nil σ) at 1. unfold create_layout.
  rewrite (bind_ok _ _ _ _ _ (get_annotations_ext _ _ _ _ Hi)).
  rewrite (bind_ok _ _ _ _ _ (get_title_ext _ _ _ _ Hi)).
  rewrite (bind_ok _ _ _ _ _ (alloc_ext _ _ _)).
  rewrite (bind_ok _ _ _ _ _ (get_labels_ext _ _ _ _ Hi)), Hl.
  rewrite (bind_ok _ _ _ _ _ (getitem_old_dict _ _ _ _ _ _ Hll Hx)).
  rewrite (bind_ok _ _ _ _ _ (alloc_ext _ _ _)).
  rewrite (bind_ok _ _ _ _ _ (get_labels_ext _ _ _ _ Hi)), Hl.
  rewrite (bind_ok _ _ _ _ _ (getitem_old_dict _ _ _ _ _ _ Hll Hy)).
  rewrite (bind_ok _ _ _ _ _ (alloc_ext _ _ _)).
  rewrite (bind_ok _ _ _ _ _ (alloc_ext _ _ _)).
  rewrite (bind_ok _ _ _ _ _ (alloc_ext _ _ _)).
  cbn [app length for_each]. rewrite Nat.add_0_r.
  assert (Hstep : ∀ l axis j d,
    l !! 4%nat = Some (ODict (layout_dict (length (heap σ)) (annotations_of σ i))) →
    layout_dict (length (heap σ)) (annotations_of σ i) !! KStr (axis +:+ "axis")
    = Some (VRef (length (heap σ) + j)) →
    l !! j = Some (ODict d) →
    create_layout_axis self (VRef (length (heap σ) + 4)) axis (ext σ l)
    = (Ok tt, ext σ (<[j := ODict (with_range da axis d)]> l))).
  { intros l axis j d Hlay Hax Hj. unfold create_layout_axis.
    rewrite (bind_ok _ _ _ _ _ (axis_range_ext _ _ _ _ Hi)), Ha.
    rewrite (bind_ok _ _ _ _ _ (contains_old_dict _ _ _ _ _ Hla)).
    unfold with_range. destruct (da !! KStr axis) as [r|] eqn:Er.
    - rewrite bool_decide_true by eauto.
      rewrite (bind_ok _ _ _ _ _ (axis_range_ext _ _ _ _ Hi)), Ha.
      rewrite (bind_ok _ _ _ _ _ (getitem_old_dict _ _ _ _ _ _ Hla Er)).
      rewrite (bind_ok _ _ _ _ _ (getitem_new_dict _ _ _ _ _ _ Hlay Hax)).
      by apply setitem_new_dict.
    - rewrite bool_decide_false by (by intros [? ?]).
      rewrite (bind_ok _ _ _ _ _ (getitem_new_dict _ _ _ _ _ _ Hlay Hax)).
      by apply setitem_new_dict. }
  erewrite bind_ok; [reflexivity|].
  erewrite bind_ok; [|by eapply (Hstep _ "x" 1%nat)].
  erewrite bind_ok; [|by eapply (Hstep _ "y" 2%nat)].
  reflexivity.
Qed.

Lemma lookup_dict_Some σ v k w :
  lookup_dict σ v k = Some w →
  ∃ a d, v = VRef a ∧ heap σ !! a = Some (ODict d) ∧ d !! KStr k = Some w.
Proof.
  unfold lookup_dict. destruct v as [| | | | |a]; try done.
  destruct (heap σ !! a) as [[]|] eqn:E; try done. eauto.
Qed.

Lemma is_dict_true σ v :
  is_dict σ v = true → ∃ a d, v = VRef a ∧ heap σ !! a = Some (ODict d).
Proof.
  unfold is_dict. destruct v as [| | | | |a]; try done.
  destruct (heap σ !! a) as [[]|] eqn:E; try done. eauto.
Qed.

Lemma wf_chart_inv σ self :
  wf_chart σ self = true →
  ∃ i ll dl lx ly la da,
    heap σ !! self = Some (OInst i)
    ∧ labels i = VRef ll ∧ heap σ !! ll = Some (ODict dl)
    ∧ dl !! KStr "x" = Some lx ∧ dl !! KStr "y" = Some ly
    ∧ axis_range_of σ i = VRef la ∧ heap σ !! la = Some (ODict da).
Proof.
  unfold wf_chart. destruct (heap σ !! self) as [[| | |i]|] eqn:Hi; try done.
  rewrite !andb_true_iff, !bool_decide_eq_true.
  intros [[[lx Hx] [ly Hy]] Hd].
  apply lookup_dict_Some in Hx as (ll & dl & Hl & Hll & Hx).
  apply lookup_dict_Some in Hy as (ll' & dl' & Hl' & Hll' & Hy).
  apply is_dict_true in Hd as (la & da & Ha & Hla).
  assert (ll' = ll) as -> by congruence.
  assert (dl' = dl) as -> by congruence.
  by exists i, ll, dl, lx, ly, la, da.
Qed.

Lemma lookup_dict_ext_new σ l j d k :
  l !! j = Some (ODict d) →
  lookup_dict (ext σ l) (VRef (length (heap σ) + j)) k = d !! KStr k.
Proof.
  intros E. unfold lookup_dict, ext, set_heap. simpl.
  rewrite lookup_app_r by lia. by rewrite Nat.add_sub', E.
Qed.

Lemma lookup_dict_ext_old σ l v k w :
  lookup_dict σ v k = Some w → lookup_dict (ext σ l) v k = Some w.
Proof.
  intros (a & d & -> & Ha & Hk)%lookup_dict_Some.
  unfold lookup_dict, ext, set_heap. simpl.
  rewrite lookup_app_l by (by eapply lookup_lt_Some). by rewrite Ha.
Qed.

Lemma heap_ext_new σ l j :
  heap (ext σ l) !! (length (heap σ) + j)%nat = l !! j.
Proof.
  unfold ext, set_heap. simpl.
  rewrite lookup_app_r by lia. by rewrite Nat.add_sub'.
Qed.

Lemma is_dict_ext σ l v : is_dict σ v = true → is_dict (ext σ l) v = true.
Proof.
  intros (a & d & -> & Ha)%is_dict_true. unfold is_dict, ext, set_heap. simpl.
  rewrite lookup_app_l by (by eapply lookup_lt_Some). by rewrite Ha.
Qed.

(** [__init__] with the base hook builds a chart of the data model, and
    touches no older object. *)
Lemma init_wf_chart title xlabel ylabel ovs σ :
  is_dict σ (cls_axis_range σ) = true →
  ∃ self σ',
    __init__ CustomChart title xlabel ylabel ovs σ = (Ok self, σ')
    ∧ wf_chart σ' self = true
    ∧ extends σ σ'.
Proof.
  intros Hd. eexists _, _. split; [|split].
  - unfold __init__. rewrite <- (ext_nil σ) at 1.
    rewrite (bind_ok _ _ _ _ _ (alloc_ext _ _ _)).
    rewrite (bind_ok _ _ _ _ _ (alloc_ext _ _ _)).
    reflexivity.
  - unfold wf_chart. simpl length. rewrite heap_ext_new.
    cbn [app lookup list_lookup labels].
    erewrite !(lookup_dict_ext_new _ _ 0) by reflexivity.
    rewrite andb_true_iff. split; [done|].
    by apply is_dict_ext.
  - by eexists.
Qed.

(** Reading [layout[k1][k2]] out of the store [create_layout] leaves. *)
Lemma layout_objects_read2 σ n t lx ly ann da k1 k2 j d :
  n = length (heap σ) →
  layout_dict n ann !! KStr k1 = Some (VRef (n + j)) →
  layout_objects n t lx ly ann da !! j = Some (ODict d) →
  lookup_dict2 (ext σ (layout_objects n t lx ly ann da)) (VRef (n + 4)) k1 k2
  = d !! KStr k2.
Proof.
  intros -> Hk Hj. unfold lookup_dict2.
  erewrite (lookup_dict_ext_new _ _ 4) by reflexivity. rewrite Hk. simpl.
  by apply lookup_dict_ext_new.
Qed.

(** C4: in the mapping [create_layout] returns, the x axis has
    [autorange = True] and no [range] when ["x"] is absent from [axis_range],
    and [range = axis_range["x"]] and no [autorange] when it is present; the
    same for the y axis with ["y"]; and the y axis has [zeroline = True] in
    every case. *)
Theorem create_layout_axis_range σ self i :
  heap σ !! self = Some (OInst i) →
  wf_chart σ self = true →
  ∃ layout σ',
    create_layout self σ = (Ok layout, σ')
    ∧ (∀ axis, axis = "x" ∨ axis = "y" →
        match lookup_dict σ (axis_range_of σ i) axis with
        | None =>
            lookup_dict2 σ' layout (axis +:+ "axis") "autorange" = Some (VBool true)
            ∧ lookup_dict2 σ' layout (axis +:+ "axis") "range" = None
        | Some r =>
            lookup_dict2 σ' layout (axis +:+ "axis") "range" = Some r
            ∧ lookup_dict2 σ' layout (axis +:+ "axis") "autorange" = None
        end)
    ∧ lookup_dict2 σ' layout "yaxis" "zeroline" = Some (VBool true).
Proof.
  intros Hi (i' & ll & dl & lx & ly & la & da & Hi' & Hl & Hll & Hx & Hy & Ha & Hla)%wf_chart_inv.
  assert (i' = i) as -> by congruence.
  eexists _, _. split; [by eapply create_layout_closed|].
  assert (Hda : ∀ k, lookup_dict σ (axis_range_of σ i) k = da !! KStr k).
  { intros k. rewrite Ha. unfold lookup_dict. by rewrite Hla. }
  split.
  - intros axis [-> | ->]; rewrite Hda.
    + rewrite !(layout_objects_read2 _ _ _ _ _ _ _ "xaxis" _ 1 _ eq_refl eq_refl eq_refl).
      unfold with_range. by destruct (da !! KStr "x").
    + rewrite !(layout_objects_read2 _ _ _ _ _ _ _ "yaxis" _ 2 _ eq_refl eq_refl eq_refl).
      unfold with_range. by destruct (da !! KStr "y").
  - rewrite (layout_objects_read2 _ _ _ _ _ _ _ "yaxis" _ 2 _ eq_refl eq_refl eq_refl).
    unfold with_range. by destruct (da !! KStr "y").
Qed.

(** C9: in the mapping [create_layout] returns, [legend] is
    [{orientation: "h", y: -0.25}], [hovermode] is ["closest"], [title] is
    the plotly title object built from the instance's title string, and
    [xaxis] has [automargin = True] and [title = labels["x"]]. *)
Theorem create_layout_defaults σ self i :
  heap σ !! self = Some (OInst i) →
  wf_chart σ self = true →
  ∃ layout σ' lg ttl,
    create_layout self σ = (Ok layout, σ')
    ∧ lookup_dict σ' layout "legend" = Some (VRef lg)
    ∧ heap σ' !! lg
      = Some (ODict (dict_of [("orientation", VStr "h"); ("y", VFloat (-0.25))]))
    ∧ lookup_dict σ' layout "hovermode" = Some (VStr "closest")
    ∧ lookup_dict σ' layout "title" = Some (VRef ttl)
    ∧ heap σ' !! ttl = Some (ONative (go_layout_Title (title i)))
    ∧ lookup_dict2 σ' layout "xaxis" "automargin" = Some (VBool true)
    ∧ lookup_dict2 σ' layout "xaxis" "title" = lookup_dict σ (labels i) "x".
Proof.
  intros Hi (i' & ll & dl & lx & ly & la & da & Hi' & Hl & Hll & Hx & Hy & Ha & Hla)%wf_chart_inv.
  assert (i' = i) as -> by congruence.
  eexists _, _, (length (heap σ) + 3)%nat, (length (heap σ) + 0)%nat.
  split; [by eapply create_layout_closed|].
  erewrite !(lookup_dict_ext_new _ _ 4) by reflexivity. rewrite !heap_ext_new.
  rewrite !(layout_objects_read2 _ _ _ _ _ _ _ "xaxis" _ 1 _ eq_refl eq_refl eq_refl).
  assert (lookup_dict σ (labels i) "x" = Some lx) as ->.
  { rewrite Hl. unfold lookup_dict. by rewrite Hll. }
  rewrite Nat.add_0_r.
  repeat split; try done; unfold with_range; by destruct (da !! KStr "x").
Qed.

(** C6: [create_traces] of the base class raises [NotImplementedError],
    whatever the data and the keyword arguments, and leaves the store alone. *)
Theorem create_traces_base_unimplemented σ self df_raw kwargs_data :
  create_traces CustomChart self df_raw kwargs_data σ
  = (Raise (NotImplementedError "create_traces must be implemented by child class"), σ).
Proof. reflexivity. Qed.

Lemma axis_range_setter_raise σ self i v errs :
  heap σ !! self = Some (OInst i) →
  validate σ v _axis_range_schema = Ok errs →
  errs ≠ [] →
  axis_range_setter self v σ
  = (Raise (RuntimeError ("Validation of self.axis_range failed: " +:+ format_errors errs)), σ).
Proof.
  intros Hi Hv Hne. unfold axis_range_setter.
  rewrite (bind_ok _ _ _ _ _ (get_inst_plain _ _ _ Hi)).
  erewrite bind_ok by reflexivity.
  erewrite bind_ok by (unfold lift; by rewrite Hv).
  by destruct errs.
Qed.

(** C3: when [validate] reports a non-empty error collection, the setter
    raises the [RuntimeError] (the specification's ConfigurationError) whose
    message carries the rendered errors, the store is as before the call,
    and the getter returns afterwards what it returned before. *)
Theorem axis_range_setter_rejects σ self i v errs :
  heap σ !! self = Some (OInst i) →
  validate σ v _axis_range_schema = Ok errs →
  errs ≠ [] →
  axis_range_setter self v σ
  = (Raise (RuntimeError ("Validation of self.axis_range failed: " +:+ format_errors errs)), σ)
  ∧ axis_range self (axis_range_setter self v σ).2 = axis_range self σ.
Proof.
  intros Hi Hv Hne.
  pose proof (axis_range_setter_raise σ self i v errs Hi Hv Hne) as E.
  by rewrite E.
Qed.

(** C5: when the overriding [create_traces], [create_layout],
    [apply_custom_layout] and [go.Layout] return, [create_figure] returns a
    fresh mapping with exactly the keys [data] and [layout], [data] being
    what [create_traces(df_raw, **kwargs_data)] returned and [layout] the
    plotly object [go.Layout] built from what
    [apply_custom_layout(create_layout())] returned. *)
Theorem create_figure_composes C self df_raw kwargs_data σ data σ1 lay0 σ2 lay1 σ3 n :
  create_traces C self df_raw kwargs_data σ = (Ok data, σ1) →
  create_layout self σ1 = (Ok lay0, σ2) →
  apply_custom_layout self lay0 σ2 = (Ok lay1, σ3) →
  go_Layout σ3 lay1 = Ok n →
  ∃ fig lay d σ',
    create_figure C self df_raw kwargs_data σ = (Ok (VRef fig), σ')
    ∧ heap σ' !! fig = Some (ODict d)
    ∧ dom d = {[KStr "data"; KStr "layout"]}
    ∧ d !! KStr "data" = Some data
    ∧ d !! KStr "layout" = Some (VRef lay)
    ∧ heap σ' !! lay = Some (ONative n)
    ∧ σ' = ext σ3 [ONative n; ODict d].
Proof.
  intros Ht Hl Ha Hg.
  exists (length (heap σ3) + 1)%nat, (length (heap σ3) + 0)%nat,
    (dict_of [("data", data); ("layout", VRef (length (heap σ3) + 0))]).
  eexists. split.
  - unfold create_figure.
    rewrite (bind_ok _ _ _ _ _ Ht), (bind_ok _ _ _ _ _ Hl), (bind_ok _ _ _ _ _ Ha).
    erewrite bind_ok by reflexivity.
    erewrite bind_ok by (unfold lift; by rewrite Hg).
    rewrite <- (ext_nil σ3) at 1.
    rewrite (bind_ok _ _ _ _ _ (alloc_ext _ _ _)).
    rewrite (bind_ok _ _ _ _ _ (alloc_ext _ _ _)).
    reflexivity.
  - rewrite !heap_ext_new. by repeat split.
Qed.

(** C8: with the single override [("legend", "y", -0.1)], applied to the
    layout [create_layout] returns, [apply_custom_layout] returns that
    layout; the store differs from the one [create_layout] left in the
    legend mapping only, and there in the entry [y] only, so that
    [layout["legend"]["y"]] is [-0.1] and [layout["legend"]["orientation"]]
    is still ["h"]. *)
Theorem apply_custom_layout_legend_y σ self i :
  heap σ !! self = Some (OInst i) →
  wf_chart σ self = true →
  layout_overrides i = [(KStr "legend", Some (KStr "y"), VFloat (-0.1))] →
  ∃ layout σ1 σ2 lg d,
    create_layout self σ = (Ok layout, σ1)
    ∧ apply_custom_layout self layout σ1 = (Ok layout, σ2)
    ∧ lookup_dict σ1 layout "legend" = Some (VRef lg)
    ∧ heap σ1 !! lg = Some (ODict d)
    ∧ σ2 = set_heap (<[lg := ODict (<[KStr "y" := VFloat (-0.1)]> d)]> (heap σ1)) σ1
    ∧ lookup_dict2 σ2 layout "legend" "y" = Some (VFloat (-0.1))
    ∧ lookup_dict2 σ2 layout "legend" "orientation" = Some (VStr "h").
Proof.
  intros Hi (i' & ll & dl & lx & ly & la & da & Hi' & Hl & Hll & Hx & Hy & Ha & Hla)%wf_chart_inv Ho.
  assert (i' = i) as -> by congruence.
  set (n := length (heap σ)).
  set (objs := layout_objects n (title i) lx ly (annotations_of σ i) da).
  set (legend := dict_of [("orientation", VStr "h"); ("y", VFloat (-0.25))]).
  exists (VRef (n + 4)), (ext σ objs),
    (ext σ (<[3%nat := ODict (<[KStr "y" := VFloat (-0.1)]> legend)]> objs)),
    (n + 3)%nat, legend.
  subst n.
  split; [by eapply create_layout_closed|].
  split.
  { unfold apply_custom_layout.
    rewrite (bind_ok _ _ _ _ _ (get_layout_overrides_ext _ _ _ _ Hi)), Ho.
    cbn [for_each apply_override].
    erewrite bind_ok; [reflexivity|].
    erewrite bind_ok; [reflexivity|].
    erewrite bind_ok; [|by eapply (getitem_new_dict _ objs 4)].
    by eapply (setitem_new_dict _ objs 3). }
  split; [by erewrite (lookup_dict_ext_new _ objs 4) by reflexivity|].
  split; [by rewrite heap_ext_new|].
  split.
  { unfold ext, set_heap. simpl. by rewrite insert_app_r. }
  unfold lookup_dict2.
  erewrite !(lookup_dict_ext_new _ _ 4) by reflexivity.
  assert (∀ n, layout_dict n (annotations_of σ i) !! KStr "legend"
               = Some (VRef (n + 3))) as -> by reflexivity.
  cbn [mbind option_bind].
  erewrite !(lookup_dict_ext_new _ _ 3) by reflexivity.
  by split.
Qed.

Lemma for_each_app_ok {A} (xs ys : list A) (body : A → M unit) σ σ' :
  for_each xs body σ = (Ok tt, σ') →
  for_each (xs ++ ys) body σ = for_each ys body σ'.
Proof.
  revert σ. induction xs as [|x xs IH]; intros σ E; simpl in *.
  - by injection E as ->.
  - unfold mbind, M_bind in *.
    destruct (body x σ) as [[[]|e] σ1]; [by apply IH | done].
Qed.

Lemma getitem_dict_missing σ a d k :
  heap σ !! a = Some (ODict d) → d !! k = None →
  py_getitem (VRef a) k σ = (Raise (KeyError k), σ).
Proof.
  intros E Ek. unfold py_getitem, deref, mbind, M_bind. by rewrite E, Ek.
Qed.

(** C7: an override with a sub key whose parent key is not a key of the
    layout at the time it is applied makes [apply_custom_layout] raise
    [KeyError] on that parent key, the earlier overrides having taken
    effect; and when the layout is the one [create_figure] built, the
    [create_figure] call raises that [KeyError]. *)
Theorem apply_custom_layout_missing_parent
    σ self i pre parent_key sub_key v rest lay σ' d :
  heap σ !! self = Some (OInst i) →
  layout_overrides i = (pre ++ (parent_key, Some sub_key, v) :: rest)%list →
  for_each pre (apply_override (VRef lay)) σ = (Ok tt, σ') →
  heap σ' !! lay = Some (ODict d) →
  d !! parent_key = None →
  apply_custom_layout self (VRef lay) σ = (Raise (KeyError parent_key), σ')
  ∧ ∀ C df_raw kwargs_data σ0 data σ1,
      create_traces C self df_raw kwargs_data σ0 = (Ok data, σ1) →
      create_layout self σ1 = (Ok (VRef lay), σ) →
      create_figure C self df_raw kwargs_data σ0 = (Raise (KeyError parent_key), σ').
Proof.
  intros Hi Ho Hpre Hlay Hk.
  assert (apply_custom_layout self (VRef lay) σ = (Raise (KeyError parent_key), σ')) as E.
  { unfold apply_custom_layout.
    rewrite (bind_ok _ _ _ _ _ (get_layout_overrides_plain _ _ _ Hi)), Ho.
    apply bind_raise. rewrite (for_each_app_ok _ _ _ _ _ Hpre).
    cbn [for_each apply_override]. apply bind_raise, bind_raise.
    by apply getitem_dict_missing with d. }
  split; [done|].
  intros C df_raw kwargs_data σ0 data σ1 Ht Hl. unfold create_figure.
  rewrite (bind_ok _ _ _ _ _ Ht), (bind_ok _ _ _ _ _ Hl).
  by apply bind_raise.
Qed.

(** ** Shared class-level defaults *)

(** C1 (as the code has it): two instances of the base class built with the
    same arguments share the class-level [annotations] list, so an
    annotation appended through the first is seen through the second. *)
Theorem annotations_shared_by_instances title xlabel ylabel ovs note :
  (append_to_first CustomChart title xlabel ylabel ovs note module_state).1
  = Ok ([], [note]).
Proof. reflexivity. Qed.

(** A subclass whose hook binds a fresh list on each instance keeps them
    apart. *)
Lemma annotations_own_per_instance traces title xlabel ylabel ovs note :
  (append_to_first (OwnAnnotations traces) title xlabel ylabel ovs note module_state).1
  = Ok ([], []).
Proof. reflexivity. Qed.

(** ** The axis-range setter *)

Lemma flat_map_all_nil {A B} (f : A → list B) (xs : list A) :
  (∀ x, x ∈ xs → f x = []) → flat_map f xs = [].
Proof.
  induction xs as [|x xs IH]; intros Hf; [done|]. simpl.
  rewrite Hf by apply list_elem_of_here.
  apply IH. intros y Hy. apply Hf. by apply list_elem_of_further.
Qed.

Lemma check_known_nil (d : gmap key value) :
  dom d ⊆ {[KStr "x"; KStr "y"]} →
  flat_map (check_known _axis_range_schema) (map_to_list d) = [].
Proof.
  intros Hd. apply flat_map_all_nil.
  intros [k w] Hin%elem_of_map_to_list.
  assert (k ∈ dom d) as Hk%Hd by (apply elem_of_dom; eauto).
  unfold check_known, in_schema. simpl.
  assert (k = KStr "x" ∨ k = KStr "y") as [-> | ->] by set_solver; done.
Qed.

Lemma check_field_nil σ name (p : value → bool) allowed v :
  (∀ w, p w = true → existsb (λ t, type_is σ t w) allowed = true) →
  bounds_ok σ p v = true →
  check_field σ name {| items := [allowed; allowed]; required := false; type := "list" |} v
  = [].
Proof.
  intros Hp. unfold bounds_ok, check_field.
  destruct v as [| | | | |a]; try done. simpl.
  destruct (heap σ !! a) as [[vs| | |]|]; try done.
  destruct vs as [|a1 [|a2 [|]]]; try done.
  intros [H1%Hp H2%Hp]%andb_true_iff. simpl.
  unfold check_item. simpl. by rewrite H1, H2.
Qed.

Lemma schema_validate_ok σ v :
  schema_valid σ v = true →
  schema_validate σ v _axis_range_schema = Ok [].
Proof.
  unfold schema_valid, axis_range_ok, schema_validate.
  destruct v as [| | | | |a]; try done.
  destruct (heap σ !! a) as [[|d| |]|]; try done.
  rewrite !andb_true_iff, bool_decide_eq_true. intros [[Hd Hx] Hy].
  rewrite (check_known_nil _ Hd). simpl. unfold check_rule. simpl.
  f_equal.
  destruct (d !! KStr "x") as [vx|]; destruct (d !! KStr "y") as [vy|]; simpl in *;
    rewrite ?(check_field_nil σ "x" numeric_or_string _ vx),
            ?(check_field_nil σ "y" numeric _ vy); try done;
    by intros [].
Qed.

Lemma flat_map_nil_inv {A B} (f : A → list B) (xs : list A) x :
  flat_map f xs = [] → x ∈ xs → f x = [].
Proof.
  induction xs as [|y xs IH]; intros E Hx; [by apply not_elem_of_nil in Hx|].
  simpl in E. apply app_eq_nil in E as [Ey Exs].
  apply elem_of_cons in Hx as [-> | Hx]; auto.
Qed.

Lemma check_field_nil_inv σ name (p : value → bool) allowed v :
  (∀ w, existsb (λ t, type_is σ t w) allowed = true → p w = true) →
  check_field σ name {| items := [allowed; allowed]; required := false; type := "list" |} v
  = [] →
  bounds_ok σ p v = true.
Proof.
  intros Hp. unfold bounds_ok, check_field. simpl.
  destruct v as [| | | | |a]; try done. simpl.
  destruct (heap σ !! a) as [[vs| | |]|]; try done. simpl.
  destruct vs as [|a1 [|a2 [|]]]; try done. simpl.
  unfold check_item. simpl.
  destruct (existsb _ allowed) eqn:E1; [|done].
  destruct (existsb (λ t, type_is σ t a2) allowed) eqn:E2; [|done].
  intros _. by rewrite (Hp _ E1), (Hp _ E2).
Qed.

Lemma permitted_x σ w :
  existsb (λ t, type_is σ t w) ["integer"; "float"; "string"] = true →
  numeric_or_string w = true.
Proof.
  destruct w as [| | | | |a]; try done. simpl.
  by destruct (heap σ !! a) as [[]|].
Qed.

Lemma permitted_y σ w :
  existsb (λ t, type_is σ t w) ["integer"; "float"] = true →
  numeric w = true.
Proof.
  destruct w as [| | | | |a]; try done. simpl.
  by destruct (heap σ !! a) as [[]|].
Qed.

(** The modelled validator reports no error on exactly the values the
    schema admits. *)
Lemma schema_validate_nil_inv σ v :
  schema_validate σ v _axis_range_schema = Ok [] →
  schema_valid σ v = true.
Proof.
  unfold schema_valid, axis_range_ok, schema_validate.
  destruct v as [| | | | |a]; try done.
  destruct (heap σ !! a) as [[|d| |]|]; try done.
  intros [= [Ek Er]%app_eq_nil].
  rewrite !andb_true_iff, bool_decide_eq_true. split; [split|].
  - intros k [w Hk]%elem_of_dom.
    apply elem_of_map_to_list in Hk.
    pose proof (flat_map_nil_inv _ _ _ Ek Hk) as Hc.
    unfold check_known, in_schema in Hc. simpl in Hc.
    repeat case_bool_decide; simpl in Hc; try done; subst; set_solver.
  - simpl in Er. apply app_eq_nil in Er as [Ex _].
    unfold check_rule in Ex. simpl in Ex.
    destruct (d !! KStr "x") as [vx|]; [|done]. simpl.
    eapply check_field_nil_inv; [apply permitted_x | exact Ex].
  - simpl in Er. apply app_eq_nil in Er as [_ [Ey _]%app_eq_nil].
    unfold check_rule in Ey. simpl in Ey.
    destruct (d !! KStr "y") as [vy|]; [|done]. simpl.
    eapply check_field_nil_inv; [apply permitted_y | exact Ey].
Qed.

(** With the modelled validator, a value the schema does not admit (a wrong
    number of bounds, a bound of a wrong type, an unexpected key) is
    rejected and the store is left as it was. *)
Lemma axis_range_setter_rejects_invalid σ self i v :
  validate = schema_validate →
  heap σ !! self = Some (OInst i) →
  schema_valid σ v = false →
  ∃ msg, axis_range_setter self v σ = (Raise (RuntimeError msg), σ).
Proof.
  intros Hval Hi Hv.
  destruct (schema_validate σ v _axis_range_schema) as [errs|e] eqn:E.
  - eexists. eapply axis_range_setter_raise; [done | by rewrite Hval |].
    intros ->. apply schema_validate_nil_inv in E. congruence.
  - exfalso. revert E. unfold schema_validate.
    destruct v as [| | | | |a]; try done. by destruct (heap σ !! a) as [[]|].
Qed.

Lemma axis_range_after_set σ self i v :
  heap σ !! self = Some (OInst i) →
  ∃ σ', set__axis_range self v σ = (Ok tt, σ')
    ∧ axis_range self σ' = (Ok v, σ')
    ∧ σ' = set_heap (<[self := OInst {| title := title i; labels := labels i;
                                         layout_overrides := layout_overrides i;
                                         inst_axis_range := Some v;
                                         inst_annotations := inst_annotations i |}]>
                       (heap σ)) σ.
Proof.
  intros Hi. eexists. split; [|split; [|reflexivity]].
  - unfold set__axis_range. by rewrite (bind_ok _ _ _ _ _ (get_inst_plain _ _ _ Hi)).
  - unfold axis_range, get__axis_range.
    erewrite bind_ok; [|apply get_inst_plain; simpl;
                        apply list_lookup_insert_eq; by eapply lookup_lt_Some].
    reflexivity.
Qed.

Lemma axis_range_setter_ok σ self i v :
  heap σ !! self = Some (OInst i) →
  validate σ v _axis_range_schema = Ok [] →
  axis_range_setter self v σ = set__axis_range self v σ.
Proof.
  intros Hi Hv. unfold axis_range_setter.
  rewrite (bind_ok _ _ _ _ _ (get_inst_plain _ _ _ Hi)).
  erewrite bind_ok by reflexivity.
  by erewrite bind_ok by (unfold lift; by rewrite Hv).
Qed.

(** The data model is an invariant of the setter, with the modelled
    validator: [axis_range] stays a mapping. *)
Lemma axis_range_setter_wf_chart σ self v :
  validate = schema_validate →
  wf_chart σ self = true →
  wf_chart (axis_range_setter self v σ).2 self = true.
Proof.
  intros Hval Hwf.
  destruct (wf_chart_inv _ _ Hwf)
    as (i & ll & dl & lx & ly & la & da & Hi & Hl & Hll & Hx & Hy & Ha & Hla).
  destruct (schema_valid σ v) eqn:Hv.
  2: { destruct (axis_range_setter_rejects_invalid σ self i v Hval Hi Hv) as [msg ->].
       done. }
  rewrite (axis_range_setter_ok σ self i v Hi)
    by (by rewrite Hval, (schema_validate_ok _ _ Hv)).
  destruct (axis_range_after_set σ self i v Hi) as (σ' & -> & _ & ->). simpl.
  assert (is_dict σ v = true) as (a & d & -> & Hd)%is_dict_true.
  { revert Hv. unfold schema_valid, axis_range_ok, is_dict.
    destruct v as [| | | | |a]; try done. by destruct (heap σ !! a) as [[]|]. }
  unfold wf_chart. simpl.
  rewrite list_lookup_insert_eq by (by eapply lookup_lt_Some). simpl.
  rewrite Hl. unfold lookup_dict, axis_range_of, is_dict. simpl.
  rewrite !list_lookup_insert_ne by congruence.
  rewrite Hll, Hx, Hy, Hd.
  rewrite !bool_decide_true; eauto.
Qed.

(** C2 (amended): with the validator modelled from the specification, an
    [axis_range] that has none, one or both of the keys ["x"] and ["y"] and no
    other, two integer, float or string bounds under ["x"] and two integer or
    float bounds under ["y"], is accepted: the setter returns, the getter then
    returns the assigned value, and the store differs in the instance's own
    binding only. *)
Theorem axis_range_setter_accepts σ self i v :
  validate = schema_validate →
  heap σ !! self = Some (OInst i) →
  schema_valid σ v = true →
  ∃ σ',
    axis_range_setter self v σ = (Ok tt, σ')
    ∧ axis_range self σ' = (Ok v, σ')
    ∧ (∀ a, a ≠ self → heap σ' !! a = heap σ !! a)
    ∧ schema_valid σ' v = true.
Proof.
  intros Hval Hi Hv.
  destruct (axis_range_after_set σ self i v Hi) as (σ' & Hset & Hget & Hσ').
  exists σ'. split; [|split; [done|]].
  - rewrite (axis_range_setter_ok σ self i v Hi); [done|].
    by rewrite Hval, (schema_validate_ok _ _ Hv).
  - assert (Hother : ∀ a, a ≠ self → heap σ' !! a = heap σ !! a).
    { intros a Ha. rewrite Hσ'. simpl. by apply list_lookup_insert_ne. }
    split; [done|].
    revert Hv. unfold schema_valid, axis_range_ok.
    destruct v as [| | | | |a]; try done.
    destruct (heap σ !! a) as [[|d| |]|] eqn:Ea; try done.
    rewrite (Hother a), Ea by congruence.
    assert (Hb : ∀ p w, bounds_ok σ p w = true → bounds_ok σ' p w = true).
    { intros p [| | | | |b]; try done. unfold bounds_ok.
      destruct (heap σ !! b) as [[| | |]|] eqn:Eb; try done.
      by rewrite (Hother b), Eb by congruence. }
    rewrite !andb_true_iff. intros [[? Hx] Hy]. repeat split; [done| |].
    + destruct (d !! KStr "x"); [by apply Hb|done].
    + destruct (d !! KStr "y"); [by apply Hb|done].
Qed.

(** ** What a call leaves of the store *)

Lemma pure_ret {A} (a : A) : pure (mret a).
Proof. done. Qed.

Lemma pure_raise {A} e : pure (raise (A := A) e).
Proof. done. Qed.

Lemma pure_lift {A} (r : result A) : pure (lift r).
Proof. done. Qed.

Lemma pure_get_state : pure get_state.
Proof. done. Qed.

Lemma pure_deref a : pure (deref a).
Proof. intros σ. unfold deref. by destruct (heap σ !! a). Qed.

Lemma pure_bind {A B} (m : M A) (k : A → M B) :
  pure m → (∀ a, pure (k a)) → pure (m ≫= k).
Proof.
  intros Hm Hk σ. unfold mbind, M_bind. specialize (Hm σ).
  destruct (m σ) as [[a|e] σ1]; simpl in Hm; subst; [apply Hk | done].
Qed.

Lemma pure_fmap {A B} (f : A → B) (m : M A) : pure m → pure (f <$> m).
Proof. intros Hm. apply pure_bind; [done|]. intros a. apply pure_ret. Qed.

Lemma pure_get_inst self : pure (get_inst self).
Proof.
  apply pure_bind; [apply pure_deref|].
  intros []; (apply pure_ret || apply pure_raise).
Qed.

Lemma pure_get_annotations self : pure (get_annotations self).
Proof.
  apply pure_bind; [apply pure_get_inst|]. intros i.
  destruct (inst_annotations i); [apply pure_ret | apply pure_fmap, pure_get_state].
Qed.

Lemma pure_axis_range self : pure (axis_range self).
Proof.
  apply pure_bind; [apply pure_get_inst|]. intros i.
  destruct (inst_axis_range i); [apply pure_ret | apply pure_fmap, pure_get_state].
Qed.

Lemma pure_py_getitem c k : pure (py_getitem c k).
Proof.
  destruct c; try apply pure_raise.
  - destruct k; [apply pure_raise|].
    simpl. destruct (_ ≫= _); (apply pure_ret || apply pure_raise).
  - apply pure_bind; [apply pure_deref|]. intros [vs|d|n|i].
    + destruct k; [apply pure_raise|].
      destruct (_ ≫= _); (apply pure_ret || apply pure_raise).
    + destruct (d !! k); (apply pure_ret || apply pure_raise).
    + apply pure_lift.
    + apply pure_raise.
Qed.

Lemma pure_py_contains s c : pure (py_contains s c).
Proof.
  destruct c; try apply pure_raise; [apply pure_ret|].
  apply pure_bind; [apply pure_deref|].
  intros []; (apply pure_ret || apply pure_raise || apply pure_lift).
Qed.

(** A pure computation run: its result, and the store as it was. *)
Lemma pure_run {A} (m : M A) σ : pure m → ∃ r, m σ = (r, σ).
Proof. intros Hm. exists (m σ).1. rewrite <- (Hm σ) at 3. by destruct (m σ). Qed.

Lemma extends_refl σ : extends σ σ.
Proof. exists []. by rewrite ext_nil. Qed.

Lemma extends_trans σ1 σ2 σ3 : extends σ1 σ2 → extends σ2 σ3 → extends σ1 σ3.
Proof. intros [l ->] [l' ->]. exists (l ++ l')%list. apply ext_ext. Qed.

Lemma extends_lookup σ σ' a o :
  extends σ σ' → heap σ !! a = Some o → heap σ' !! a = Some o.
Proof.
  intros [l ->] E. unfold ext, set_heap. simpl.
  rewrite lookup_app_l by (by eapply lookup_lt_Some). done.
Qed.

(** One round of the loop writes into the axis mapping it finds under
    [axis_name], and nowhere else. *)
Lemma create_layout_axis_frame σ l self axis j dlay d :
  l !! 4%nat = Some (ODict dlay) →
  dlay !! KStr (axis +:+ "axis") = Some (VRef (length (heap σ) + j)) →
  l !! j = Some (ODict d) →
  ∃ r d', create_layout_axis self (VRef (length (heap σ) + 4)) axis (ext σ l)
          = (r, ext σ (<[j := ODict d']> l)).
Proof.
  intros Hlay Hax Hj. unfold create_layout_axis.
  assert (Hid : ext σ l = ext σ (<[j := ODict d]> l)) by (by rewrite list_insert_id).
  destruct (pure_run _ (ext σ l) (pure_axis_range self)) as [[ar|e] Ear];
    [rewrite (bind_ok _ _ _ _ _ Ear)
    | rewrite (bind_raise _ _ _ _ _ Ear); exists (Raise e), d; by rewrite <- Hid].
  destruct (pure_run _ (ext σ l) (pure_py_contains axis ar)) as [[b|e] Eb];
    [rewrite (bind_ok _ _ _ _ _ Eb)
    | rewrite (bind_raise _ _ _ _ _ Eb); exists (Raise e), d; by rewrite <- Hid].
  destruct b.
  - rewrite (bind_ok _ _ _ _ _ Ear).
    destruct (pure_run _ (ext σ l) (pure_py_getitem ar (KStr axis))) as [[r|e] Er];
      [rewrite (bind_ok _ _ _ _ _ Er)
      | rewrite (bind_raise _ _ _ _ _ Er); exists (Raise e), d; by rewrite <- Hid].
    rewrite (bind_ok _ _ _ _ _ (getitem_new_dict _ _ _ _ _ _ Hlay Hax)).
    rewrite (setitem_new_dict _ _ _ _ _ _ Hj). eauto.
  - rewrite (bind_ok _ _ _ _ _ (getitem_new_dict _ _ _ _ _ _ Hlay Hax)).
    rewrite (setitem_new_dict _ _ _ _ _ _ Hj). eauto.
Qed.

Ltac step_pure E Hp :=
  match type of E with
  | (?m ≫= _) ?st = _ =>
      let a := fresh "a" in
      let e := fresh "e" in
      let Em := fresh "Em" in
      destruct (pure_run m st Hp) as [[a|e] Em];
      [ rewrite (bind_ok _ _ _ _ _ Em) in E
      | rewrite (bind_raise _ _ _ _ _ Em) in E; injection E as <- <-;
        eexists; split; [reflexivity | by intros ? [=]] ]
  end.

(** [create_layout] only allocates, and writes into what it has allocated;
    when it returns, it returns the fifth object, the layout mapping, bound
    as line 105 binds it. *)
Lemma create_layout_frame σ self r σ' :
  create_layout self σ = (r, σ') →
  ∃ l, σ' = ext σ l
    ∧ ∀ lay, r = Ok lay →
        lay = VRef (length (heap σ) + 4)
        ∧ ∃ ann, l !! 4%nat = Some (ODict (layout_dict (length (heap σ)) ann)).
Proof.
  intros E. unfold create_layout in E.
  assert (E0 : σ = ext σ []) by (by rewrite ext_nil). rewrite E0 in E. clear E0.
  step_pure E (pure_get_annotations self).
  step_pure E (pure_fmap title _ (pure_get_inst self)).
  rewrite (bind_ok _ _ _ _ _ (alloc_ext _ _ _)) in E.
  step_pure E (pure_fmap labels _ (pure_get_inst self)).
  step_pure E (pure_py_getitem a1 (KStr "x")).
  rewrite (bind_ok _ _ _ _ _ (alloc_ext _ _ _)) in E.
  step_pure E (pure_fmap labels _ (pure_get_inst self)).
  step_pure E (pure_py_getitem a3 (KStr "y")).
  rewrite (bind_ok _ _ _ _ _ (alloc_ext _ _ _)) in E.
  rewrite (bind_ok _ _ _ _ _ (alloc_ext _ _ _)) in E.
  rewrite (bind_ok _ _ _ _ _ (alloc_ext _ _ _)) in E.
  cbn [app length for_each] in E. rewrite Nat.add_0_r in E.
  clear Em Em0 Em1 Em2 Em3 Em4.
  unfold mbind, M_bind in E.
  match type of E with
  | context [create_layout_axis _ _ "x" (ext σ ?l)] =>
      destruct (create_layout_axis_frame σ l self "x" 1 _ _ eq_refl eq_refl eq_refl)
        as (rx & dx & Ex)
  end.
  rewrite Ex in E. cbn [list_insert insert] in E.
  destruct rx as [[]|ex];
    [|injection E as <- <-; eexists; split; [reflexivity | by intros ? [=]]].
  match type of E with
  | context [create_layout_axis _ _ "y" (ext σ ?l)] =>
      destruct (create_layout_axis_frame σ l self "y" 2 _ _ eq_refl eq_refl eq_refl)
        as (ry & dy & Ey)
  end.
  rewrite Ey in E. cbn [list_insert insert] in E.
  destruct ry as [[]|ey]; injection E as <- <-;
    (eexists; split; [reflexivity|]); [|by intros ? [=]].
  intros lay [= <-]. split; [done|]. by eexists.
Qed.

Lemma setitem_fresh σ l m k v :
  (length (heap σ) ≤ m)%nat →
  ∃ r l', py_setitem (VRef m) k v (ext σ l) = (r, ext σ l')
    ∧ ∀ j, j ≠ (m - length (heap σ))%nat → l' !! j = l !! j.
Proof.
  intros Hm. unfold py_setitem.
  assert (m = length (heap σ) + (m - length (heap σ)))%nat as Em by lia.
  set (j0 := (m - length (heap σ))%nat) in *. clearbody j0. subst m.
  assert (Hst : ∀ o, ∃ r l', store (length (heap σ) + j0) o (ext σ l) = (r, ext σ l')
                       ∧ ∀ j, j ≠ j0 → l' !! j = l !! j).
  { intros o. rewrite store_ext_new. eexists _, _. split; [done|].
    intros j Hj. by rewrite list_lookup_insert_ne. }
  assert (Hraise : ∀ e, ∃ (r : result ()) l', (Raise e, ext σ l) = (r, ext σ l')
                       ∧ ∀ j, j ≠ j0 → l' !! j = l !! j) by (intros; by eexists _, _).
  destruct (l !! j0) as [o|] eqn:Eo.
  - rewrite (bind_ok _ _ _ _ _ (deref_ext_new σ _ _ _ Eo)).
    destruct o as [vs|d|n|i]; [| apply Hst | | apply Hraise].
    + destruct k; [apply Hraise|]. destruct (norm_index _ _); [apply Hst | apply Hraise].
    + destruct (native_setitem n k v) as [n'|e] eqn:En.
      * erewrite bind_ok by reflexivity. apply Hst.
      * erewrite bind_raise by reflexivity. apply Hraise.
  - erewrite bind_raise; [apply Hraise|].
    unfold deref. by rewrite heap_ext_new, Eo.
Qed.

Lemma setitem_atom σ c k v :
  (∀ m, c ≠ VRef m) → py_setitem c k v σ = (Raise TypeError, σ).
Proof. intros Hc. destruct c; try done. by destruct (Hc l). Qed.

(** The loop of [apply_custom_layout] over overrides that patch fresh
    objects only: older objects stay as they are. *)
Lemma overrides_frame σ ovs :
  ∀ l replaced dlay,
    l !! 4%nat = Some (ODict dlay) →
    (∀ k w, dlay !! k = Some w →
       k ∈ replaced ∨ k = KStr "annotations" ∨ fresh_target (length (heap σ)) w) →
    sub_keys_on_fresh replaced ovs = true →
    ∃ r l', for_each ovs (apply_override (VRef (length (heap σ) + 4))) (ext σ l)
            = (r, ext σ l').
Proof.
  induction ovs as [|[[pk [sk|]] v] rest IH]; intros l replaced dlay Hlay Hinv Hsafe.
  - by eexists _, _.
  - simpl in Hsafe.
    apply andb_true_iff in Hsafe as [[Hann Hrep]%andb_true_iff Hrest].
    apply negb_true_iff, bool_decide_eq_false in Hann, Hrep.
    cbn [for_each apply_override].
    destruct (dlay !! pk) as [p|] eqn:Ep.
    2: { erewrite bind_raise; [by eexists _, _|].
         apply bind_raise. by eapply getitem_new_dict_missing. }
    assert (apply_override (VRef (length (heap σ) + 4)) (pk, Some sk, v) (ext σ l)
            = py_setitem p sk v (ext σ l)) as Eo
      by exact (bind_ok _ _ _ _ _ (getitem_new_dict _ _ _ _ _ _ Hlay Ep)).
    rewrite (bind_cong _ _ _ _ Eo).
    destruct (Hinv _ _ Ep) as [? | [? | Hp]]; [done | done |].
    destruct p as [| | | | |m];
      try (erewrite bind_raise; [by eexists _, _ | by apply setitem_atom]).
    destruct Hp as [Hm H4].
    destruct (setitem_fresh σ l m sk v Hm) as (r & l1 & E1 & Hl1).
    destruct r as [[]|e].
    + rewrite (bind_ok _ _ _ _ _ E1).
      apply (IH l1 replaced dlay); [|done|done].
      rewrite Hl1 by lia. done.
    + rewrite (bind_raise _ _ _ _ _ E1). by eexists _, _.
  - simpl in Hsafe. cbn [for_each apply_override].
    rewrite (bind_ok _ _ _ _ _ (setitem_new_dict _ _ _ _ pk v Hlay)).
    apply (IH _ (pk :: replaced) (<[pk := v]> dlay)); [| |done].
    + apply list_lookup_insert_eq. by eapply lookup_lt_Some.
    + intros k w. destruct (decide (k = pk)) as [->|Hne].
      * intros _. left. apply list_elem_of_here.
      * rewrite lookup_insert_ne by done. intros Hk.
        destruct (Hinv _ _ Hk) as [? | [? | ?]]; auto.
        left. by apply list_elem_of_further.
Qed.

Lemma layout_dict_fresh n ann k w :
  layout_dict n ann !! k = Some w →
  k ∈ [] ∨ k = KStr "annotations" ∨ fresh_target n w.
Proof.
  unfold layout_dict, dict_of. simpl.
  intros Hk.
  repeat (apply lookup_insert_Some in Hk as [[<- <-] | [_ Hk]];
          [first [by right; left | right; right; simpl; try done; lia] |]).
  by rewrite lookup_empty in Hk.
Qed.

Lemma referent_ext σ l v :
  bound_ref σ v = true → referent (ext σ l) v = referent σ v.
Proof.
  destruct v as [| | | | |a]; try done. simpl.
  intros Ha%bool_decide_eq_true. by apply lookup_app_l.
Qed.

Lemma chart_view_extends σ σ' self :
  extends σ σ' → is_Some (heap σ !! self) → chart_closed σ self = true →
  chart_view σ' self = chart_view σ self.
Proof.
  intros [l ->] [o Ho]. unfold chart_closed, chart_view.
  rewrite (extends_lookup σ (ext σ l) self o) by (done || by exists l).
  rewrite Ho. destruct o as [| | |i]; try done.
  rewrite !andb_true_iff. intros [[[Hl Ho'] Ha] Hn].
  assert (axis_range_of (ext σ l) i = axis_range_of σ i) as -> by done.
  assert (annotations_of (ext σ l) i = annotations_of σ i) as -> by done.
  rewrite !referent_ext by done.
  do 3 f_equal. f_equal.
  apply list_fmap_ext. intros k ov Hov. f_equal.
  apply referent_ext.
  rewrite forallb_forall in Ho'. apply Ho'.
  apply list_elem_of_In. by eapply list_elem_of_lookup_2.
Qed.

Lemma bound_ref_referent σ σ1 v :
  referent σ1 v = referent σ v → bound_ref σ v = true → bound_ref σ1 v = true.
Proof.
  destruct v as [| | | | |a]; try done. simpl.
  intros Hr Ha%bool_decide_eq_true. apply bool_decide_eq_true.
  destruct (lookup_lt_is_Some_2 (heap σ) a Ha) as [oa Hoa].
  rewrite Hoa in Hr. by eapply lookup_lt_Some.
Qed.

Lemma bound_overrides_view σ σ1 (ovs1 ovs : list override) :
  (λ ov : override, (ov, referent σ1 ov.2)) <$> ovs1
  = (λ ov : override, (ov, referent σ ov.2)) <$> ovs →
  forallb (λ ov : override, bound_ref σ ov.2) ovs = true →
  forallb (λ ov : override, bound_ref σ1 ov.2) ovs1 = true.
Proof.
  revert ovs. induction ovs1 as [|ov1 ovs1 IH]; intros [|ov ovs]; try done.
  simpl. intros [= -> Hr Hrest] [Hb Hbs]%andb_true_iff.
  apply andb_true_iff. split; [by eapply bound_ref_referent | by eapply IH].
Qed.

(** A chart that reads the same in two stores and has no dangling
    reference in the one has none in the other. *)
Lemma chart_closed_view σ σ1 self :
  chart_view σ1 self = chart_view σ self →
  chart_closed σ self = true →
  chart_closed σ1 self = true.
Proof.
  unfold chart_view, chart_closed.
  destruct (heap σ1 !! self) as [[| | |i1]|]; try done.
  destruct (heap σ !! self) as [[| | |i]|]; try done.
  intros [= _ Hl Hrl Ho Ha Hra Hn Hrn].
  rewrite !andb_true_iff. intros [[[Hbl Hbo] Hba] Hbn].
  rewrite Hl in Hrl |- *. rewrite Ha in Hra |- *. rewrite Hn in Hrn |- *.
  repeat split;
    [by eapply bound_ref_referent | by eapply bound_overrides_view
    | by eapply bound_ref_referent | by eapply bound_ref_referent].
Qed.

(** After [create_traces], [create_figure] adds objects and changes none,
    when no override with a sub key reaches an object of the caller. *)
Lemma create_figure_after_traces C self df_raw kwargs_data σ i :
  heap (create_traces C self df_raw kwargs_data σ).2 !! self = Some (OInst i) →
  sub_keys_on_fresh [] (layout_overrides i) = true →
  extends (create_traces C self df_raw kwargs_data σ).2
          (create_figure C self df_raw kwargs_data σ).2.
Proof.
  intros Hi1 Hsafe. unfold create_figure.
  destruct (create_traces C self df_raw kwargs_data σ) as [[data|e] σ1] eqn:Et;
    [rewrite (bind_ok _ _ _ _ _ Et)
    | rewrite (bind_raise _ _ _ _ _ Et); apply extends_refl].
  cbn [snd] in Hi1 |- *.
  destruct (create_layout self σ1) as [[lay|e] σ2] eqn:El;
    destruct (create_layout_frame _ _ _ _ El) as (l2 & -> & Hlay);
    [rewrite (bind_ok _ _ _ _ _ El)
    | rewrite (bind_raise _ _ _ _ _ El); by eexists].
  destruct (Hlay _ eq_refl) as (-> & ann & Hl2). clear Hlay.
  destruct (overrides_frame σ1 (layout_overrides i) l2 [] _ Hl2
              (layout_dict_fresh _ _) Hsafe) as (r3 & l3 & E3).
  assert (∀ r' σ', apply_custom_layout self (VRef (length (heap σ1) + 4)) (ext σ1 l2) = (r', σ')
                   → σ' = ext σ1 l3) as Ha.
  { unfold apply_custom_layout.
    rewrite (bind_ok _ _ _ _ _ (get_layout_overrides_ext _ _ _ _ Hi1)).
    unfold mbind at 1, M_bind at 1. rewrite E3.
    destruct r3 as [[]|]; by intros ?? [= _ <-]. }
  destruct (apply_custom_layout _ _ _) as [[lay1|e] σ3] eqn:Ea;
    rewrite (Ha _ _ eq_refl) in *;
    [rewrite (bind_ok _ _ _ _ _ Ea)
    | rewrite (bind_raise _ _ _ _ _ Ea); by eexists].
  erewrite bind_ok by reflexivity.
  destruct (go_Layout (ext σ1 l3) lay1) as [n|e] eqn:Eg.
  - erewrite bind_ok by reflexivity.
    rewrite (bind_ok _ _ _ _ _ (alloc_ext _ _ _)).
    rewrite (bind_ok _ _ _ _ _ (alloc_ext _ _ _)).
    by eexists.
  - erewrite bind_raise by reflexivity. by eexists.
Qed.

(** C10 (amended): whatever [create_traces] has done, what [create_figure]
    does after it changes no object, provided no override with a sub key
    names the parent key [annotations] or a parent key an earlier override
    has replaced wholesale ([i] being the chart as [create_traces] leaves
    it): the store after the call is the store [create_traces] left, with
    new objects added.  So when [create_traces] does not itself mutate the
    instance, the chart observed through its attributes (title, labels,
    layout_overrides, axis_range, annotations) is after the call what it was
    before it. *)
Theorem create_figure_frame C self df_raw kwargs_data σ i :
  heap (create_traces C self df_raw kwargs_data σ).2 !! self = Some (OInst i) →
  sub_keys_on_fresh [] (layout_overrides i) = true →
  extends (create_traces C self df_raw kwargs_data σ).2
          (create_figure C self df_raw kwargs_data σ).2
  ∧ (chart_view (create_traces C self df_raw kwargs_data σ).2 self = chart_view σ self →
     chart_closed σ self = true →
     chart_view (create_figure C self df_raw kwargs_data σ).2 self = chart_view σ self).
Proof.
  intros Hi1 Hsafe.
  pose proof (create_figure_after_traces _ _ _ _ _ _ Hi1 Hsafe) as Hext.
  split; [exact Hext|]. intros Hview Hclosed.
  rewrite <- Hview. apply chart_view_extends; [exact Hext | by rewrite Hi1 |].
  by eapply chart_closed_view.
Qed.

(** * Beyond the claims *)

(** ** [apply_custom_layout] *)

Lemma same_size_refl σ : same_size σ σ.
Proof. done. Qed.

Lemma same_size_trans σ1 σ2 σ3 : same_size σ1 σ2 → same_size σ2 σ3 → same_size σ1 σ3.
Proof. intros (? & ? & ?) (? & ? & ?). repeat split; congruence. Qed.

Lemma same_size_pure {A} (m : M A) σ : pure m → same_size σ (m σ).2.
Proof. intros Hm. by rewrite Hm. Qed.

Lemma same_size_store σ a o : same_size σ (store a o σ).2.
Proof. repeat split. simpl. apply length_insert. Qed.

Lemma same_size_bind {A B} (m : M A) (k : A → M B) σ :
  same_size σ (m σ).2 → (∀ a σ1, same_size σ1 (k a σ1).2) → same_size σ ((m ≫= k) σ).2.
Proof.
  intros Hm Hk. unfold mbind, M_bind.
  destruct (m σ) as [[a|e] σ1]; [|done].
  eapply same_size_trans; [exact Hm | apply Hk].
Qed.

Lemma same_size_py_setitem c k v σ : same_size σ (py_setitem c k v σ).2.
Proof.
  destruct c as [| | | | |a]; try done. unfold py_setitem.
  apply same_size_bind; [apply same_size_pure, pure_deref|].
  intros [vs|d|n|i] σ1; try done.
  - destruct k; [done|]. destruct (norm_index _ _); [apply same_size_store | done].
  - apply same_size_store.
  - apply same_size_bind; [done|]. intros. apply same_size_store.
Qed.

Lemma same_size_apply_override layout (ov : override) σ :
  same_size σ (apply_override layout ov σ).2.
Proof.
  destruct ov as [[pk [sk|]] v]; simpl.
  - apply same_size_bind; [apply same_size_pure, pure_py_getitem|].
    intros. apply same_size_py_setitem.
  - apply same_size_py_setitem.
Qed.

Lemma same_size_for_each {A} (xs : list A) (body : A → M unit) σ :
  (∀ x σ1, same_size σ1 (body x σ1).2) → same_size σ (for_each xs body σ).2.
Proof.
  intros Hb. revert σ. induction xs as [|x xs IH]; intros σ; [done|].
  simpl. apply same_size_bind; [apply Hb | intros _ σ1; apply IH].
Qed.

(** X1: [apply_custom_layout] works in place.  Whatever the overrides and
    the outcome, the store has as many objects afterwards as before and the
    class attributes are bound as they were; and when it returns, it returns
    the very layout it was given. *)
Theorem apply_custom_layout_in_place σ self layout :
  same_size σ (apply_custom_layout self layout σ).2
  ∧ ∀ r, (apply_custom_layout self layout σ).1 = Ok r → r = layout.
Proof.
  unfold apply_custom_layout. split.
  - apply same_size_bind.
    { apply same_size_pure, pure_fmap, pure_get_inst. }
    intros ovs σ1. apply same_size_bind; [|done].
    apply same_size_for_each. intros. apply same_size_apply_override.
  - intros r. unfold mbind, M_bind.
    destruct (get_layout_overrides self σ) as [[ovs|e] σ1]; [|done].
    destruct (for_each ovs (apply_override layout) σ1) as [[[]|e] σ2]; [|done].
    by intros [= <-].
Qed.

Lemma setitem_dict σ a d k v :
  heap σ !! a = Some (ODict d) →
  py_setitem (VRef a) k v σ = (Ok tt, set_heap (<[a := ODict (<[k := v]> d)]> (heap σ)) σ).
Proof. intros E. unfold py_setitem, deref, mbind, M_bind. by rewrite E. Qed.

Lemma getitem_dict σ a d k v :
  heap σ !! a = Some (ODict d) → d !! k = Some v →
  py_getitem (VRef a) k σ = (Ok v, σ).
Proof. intros E Ek. unfold py_getitem, deref, mbind, M_bind. by rewrite E, Ek. Qed.

Lemma set_heap_set_heap h h' σ : set_heap h (set_heap h' σ) = set_heap h σ.
Proof. done. Qed.

Lemma for_each_wholesale σ lay ovs :
  ∀ d, heap σ !! lay = Some (ODict d) →
    wholesale ovs = true →
    for_each ovs (apply_override (VRef lay)) σ
    = (Ok tt, set_heap (<[lay := ODict (replace_all d ovs)]> (heap σ)) σ).
Proof.
  revert σ. induction ovs as [|[[pk [sk|]] v] rest IH]; intros σ d Hlay Hw.
  - simpl. rewrite list_insert_id by done. by destruct σ.
  - done.
  - simpl in Hw. cbn [for_each apply_override].
    rewrite (bind_ok _ _ _ _ _ (setitem_dict _ _ _ pk v Hlay)).
    rewrite (IH _ (<[pk := v]> d)); [|simpl|done].
    + simpl. by rewrite list_insert_insert_eq.
    + apply list_lookup_insert_eq. by eapply lookup_lt_Some.
Qed.

(** X2: overrides that all replace wholesale never fail, whether their
    parent keys exist in the layout or not: the layout mapping ends up with
    each [parent_key] bound to its [value], in order, so that the last
    override of a key decides it, and no other object changes. *)
Theorem apply_custom_layout_wholesale σ self i lay d :
  heap σ !! self = Some (OInst i) →
  heap σ !! lay = Some (ODict d) →
  wholesale (layout_overrides i) = true →
  apply_custom_layout self (VRef lay) σ
  = (Ok (VRef lay),
     set_heap (<[lay := ODict (replace_all d (layout_overrides i))]> (heap σ)) σ)
  ∧ (∀ pre parent_key v,
       layout_overrides i = (pre ++ [(parent_key, None, v)])%list →
       replace_all d (layout_overrides i) !! parent_key = Some v)
  ∧ (∀ k, (∀ ov : override, ov ∈ layout_overrides i → ov.1.1 ≠ k) →
       replace_all d (layout_overrides i) !! k = d !! k).
Proof.
  intros Hi Hlay Hw. split; [|split].
  - unfold apply_custom_layout.
    rewrite (bind_ok _ _ _ _ _ (get_layout_overrides_plain _ _ _ Hi)).
    by rewrite (bind_ok _ _ _ _ _ (for_each_wholesale _ _ _ _ Hlay Hw)).
  - intros pre pk v ->. unfold replace_all. rewrite foldl_app. simpl.
    apply lookup_insert_eq.
  - intros k. clear. revert d. unfold replace_all.
    induction (layout_overrides i) as [|ov ovs IH]; intros d Hk; [done|].
    simpl. rewrite IH.
    + apply lookup_insert_ne, Hk, list_elem_of_here.
    + intros ov' Hov'. by apply Hk, list_elem_of_further.
Qed.

(** X3: an override with a sub key whose parent key is bound in the layout
    to a value that is no object (a string such as [hovermode], a number,
    [None]) raises [TypeError], the earlier overrides having taken effect
    and the later ones not. *)
Theorem apply_custom_layout_scalar_parent
    σ self i pre parent_key sub_key v rest lay σ' d w :
  heap σ !! self = Some (OInst i) →
  layout_overrides i = (pre ++ (parent_key, Some sub_key, v) :: rest)%list →
  for_each pre (apply_override (VRef lay)) σ = (Ok tt, σ') →
  heap σ' !! lay = Some (ODict d) →
  d !! parent_key = Some w →
  scalar w = true →
  apply_custom_layout self (VRef lay) σ = (Raise TypeError, σ').
Proof.
  intros Hi Ho Hpre Hlay Hk Hw. unfold apply_custom_layout.
  rewrite (bind_ok _ _ _ _ _ (get_layout_overrides_plain _ _ _ Hi)), Ho.
  apply bind_raise. rewrite (for_each_app_ok _ _ _ _ _ Hpre).
  cbn [for_each apply_override]. apply bind_raise.
  rewrite (bind_ok _ _ _ _ _ (getitem_dict _ _ _ _ _ Hlay Hk)).
  apply setitem_atom. intros m ->. done.
Qed.

(** X4: a last override with a sub key whose parent key is bound in the
    layout to a mapping sets that one entry of that mapping, whatever the
    earlier overrides and the base layout had put there; no other object
    changes and the layout is returned. *)
Theorem apply_custom_layout_sub_key
    σ self i pre parent_key sub_key v lay σ' d p dp :
  heap σ !! self = Some (OInst i) →
  layout_overrides i = (pre ++ [(parent_key, Some sub_key, v)])%list →
  for_each pre (apply_override (VRef lay)) σ = (Ok tt, σ') →
  heap σ' !! lay = Some (ODict d) →
  d !! parent_key = Some (VRef p) →
  heap σ' !! p = Some (ODict dp) →
  apply_custom_layout self (VRef lay) σ
  = (Ok (VRef lay), set_heap (<[p := ODict (<[sub_key := v]> dp)]> (heap σ')) σ').
Proof.
  intros Hi Ho Hpre Hlay Hk Hp. unfold apply_custom_layout.
  rewrite (bind_ok _ _ _ _ _ (get_layout_overrides_plain _ _ _ Hi)), Ho.
  erewrite bind_ok; [reflexivity|].
  rewrite (for_each_app_ok _ _ _ _ _ Hpre).
  cbn [for_each apply_override].
  erewrite bind_ok; [reflexivity|].
  rewrite (bind_ok _ _ _ _ _ (getitem_dict _ _ _ _ _ Hlay Hk)).
  by apply setitem_dict.
Qed.

(** ** [create_layout] *)

(** X5: [create_layout] changes no object that exists when it is called,
    whether it returns or raises and whatever the state of the chart; the
    layout it returns is a new object. *)
Theorem create_layout_allocates_only σ self :
  extends σ (create_layout self σ).2
  ∧ ∀ layout, (create_layout self σ).1 = Ok layout →
      layout = VRef (length (heap σ) + 4) ∧ referent σ layout = None.
Proof.
  destruct (create_layout self σ) as [r σ'] eqn:E.
  destruct (create_layout_frame _ _ _ _ E) as (l & -> & Hl). simpl.
  split; [by exists l|].
  intros layout (-> & _)%Hl. split; [done|].
  simpl. apply lookup_ge_None. lia.
Qed.

(** X6: the mapping [create_layout] returns has exactly the six keys
    [annotations], [title], [xaxis], [yaxis], [legend] and [hovermode]; its
    [annotations] entry is the very list [self.annotations] refers to, not a
    copy; and its y axis has [automargin = True] and [title = labels["y"]]. *)
Theorem create_layout_shape σ self i :
  heap σ !! self = Some (OInst i) →
  wf_chart σ self = true →
  ∃ layout σ' d,
    create_layout self σ = (Ok layout, σ')
    ∧ referent σ' layout = Some (ODict d)
    ∧ dom d = {[KStr "annotations"; KStr "title"; KStr "xaxis"; KStr "yaxis";
                KStr "legend"; KStr "hovermode"]}
    ∧ d !! KStr "annotations" = Some (annotations_of σ i)
    ∧ lookup_dict2 σ' layout "yaxis" "automargin" = Some (VBool true)
    ∧ lookup_dict2 σ' layout "yaxis" "title" = lookup_dict σ (labels i) "y".
Proof.
  intros Hi (i' & ll & dl & lx & ly & la & da & Hi' & Hl & Hll & Hx & Hy & Ha & Hla)%wf_chart_inv.
  assert (i' = i) as -> by congruence.
  eexists _, _, (layout_dict (length (heap σ)) (annotations_of σ i)).
  split; [by eapply create_layout_closed|].
  split; [cbn [referent]; by rewrite (heap_ext_new σ _ 4)|].
  split; [done|]. split; [done|].
  rewrite !(layout_objects_read2 _ _ _ _ _ _ _ "yaxis" _ 2 _ eq_refl eq_refl eq_refl).
  assert (lookup_dict σ (labels i) "y" = Some ly) as ->.
  { rewrite Hl. unfold lookup_dict. by rewrite Hll. }
  unfold with_range. by destruct (da !! KStr "y").
Qed.

(** X7: when the [labels] mapping has lost its key ["x"], [create_layout]
    raises [KeyError] on it, and when it has ["x"] but not ["y"], on ["y"]. *)
Theorem create_layout_missing_label σ self i ll dl :
  heap σ !! self = Some (OInst i) →
  labels i = VRef ll →
  heap σ !! ll = Some (ODict dl) →
  (dl !! KStr "x" = None →
     (create_layout self σ).1 = Raise (KeyError (KStr "x")))
  ∧ (is_Some (dl !! KStr "x") → dl !! KStr "y" = None →
     (create_layout self σ).1 = Raise (KeyError (KStr "y"))).
Proof.
  intros Hi Hl Hll.
  assert (Hmiss : ∀ l k, dl !! k = None →
            py_getitem (VRef ll) k (ext σ l) = (Raise (KeyError k), ext σ l)).
  { intros l k Hk. unfold py_getitem.
    rewrite (bind_ok _ _ _ _ _ (deref_ext_old _ l _ _ Hll)). by rewrite Hk. }
  split.
  - intros Hx. unfold create_layout. rewrite <- (ext_nil σ) at 1.
    rewrite (bind_ok _ _ _ _ _ (get_annotations_ext _ _ _ _ Hi)).
    rewrite (bind_ok _ _ _ _ _ (get_title_ext _ _ _ _ Hi)).
    rewrite (bind_ok _ _ _ _ _ (alloc_ext _ _ _)).
    rewrite (bind_ok _ _ _ _ _ (get_labels_ext _ _ _ _ Hi)), Hl.
    by rewrite (bind_raise _ _ _ _ _ (Hmiss _ _ Hx)).
  - intros [lx Hx] Hy. unfold create_layout. rewrite <- (ext_nil σ) at 1.
    rewrite (bind_ok _ _ _ _ _ (get_annotations_ext _ _ _ _ Hi)).
    rewrite (bind_ok _ _ _ _ _ (get_title_ext _ _ _ _ Hi)).
    rewrite (bind_ok _ _ _ _ _ (alloc_ext _ _ _)).
    rewrite (bind_ok _ _ _ _ _ (get_labels_ext _ _ _ _ Hi)), Hl.
    rewrite (bind_ok _ _ _ _ _ (getitem_old_dict _ _ _ _ _ _ Hll Hx)).
    rewrite (bind_ok _ _ _ _ _ (alloc_ext _ _ _)).
    rewrite (bind_ok _ _ _ _ _ (get_labels_ext _ _ _ _ Hi)), Hl.
    by rewrite (bind_raise _ _ _ _ _ (Hmiss _ _ Hy)).
Qed.

(** ** [create_layout] followed by [apply_custom_layout] *)

(** X8: patching the range of an axis through an override does not turn
    its autorange off.  On a chart whose [axis_range] has no entry for the
    axis, the override [(axis_name, "range", r)] leaves the axis of the
    patched layout with [range = r] and still [autorange = True]. *)
Theorem override_range_keeps_autorange σ self i axis r :
  heap σ !! self = Some (OInst i) →
  wf_chart σ self = true →
  axis = "x" ∨ axis = "y" →
  lookup_dict σ (axis_range_of σ i) axis = None →
  layout_overrides i = [(KStr (axis +:+ "axis"), Some (KStr "range"), r)] →
  ∃ layout σ',
    (create_layout self ≫= apply_custom_layout self) σ = (Ok layout, σ')
    ∧ lookup_dict2 σ' layout (axis +:+ "axis") "range" = Some r
    ∧ lookup_dict2 σ' layout (axis +:+ "axis") "autorange" = Some (VBool true).
Proof.
  intros Hi (i' & ll & dl & lx & ly & la & da & Hi' & Hl & Hll & Hx & Hy & Ha & Hla)%wf_chart_inv
    Hax Habs Ho.
  assert (i' = i) as -> by congruence.
  assert (da !! KStr axis = None) as Hda.
  { revert Habs. rewrite Ha. unfold lookup_dict. by rewrite Hla. }
  set (objs := layout_objects (length (heap σ)) (title i) lx ly (annotations_of σ i) da).
  assert (∃ j dj, (j ≠ 4)%nat
    ∧ layout_dict (length (heap σ)) (annotations_of σ i) !! KStr (axis +:+ "axis")
      = Some (VRef (length (heap σ) + j))
    ∧ objs !! j = Some (ODict dj)
    ∧ dj !! KStr "autorange" = Some (VBool true)) as (j & dj & Hj4 & Hj & Hobj & Hauto).
  { destruct Hax as [-> | ->]; [exists 1%nat | exists 2%nat];
      (eexists; split; [lia|]; split; [reflexivity|]; split; [reflexivity|]);
      unfold with_range; by rewrite Hda. }
  exists (VRef (length (heap σ) + 4)),
    (ext σ (<[j := ODict (<[KStr "range" := r]> dj)]> objs)).
  split.
  - erewrite bind_ok; [|by eapply create_layout_closed].
    unfold apply_custom_layout.
    rewrite (bind_ok _ _ _ _ _ (get_layout_overrides_ext _ _ _ _ Hi)), Ho.
    cbn [for_each apply_override].
    erewrite bind_ok; [reflexivity|].
    erewrite bind_ok; [reflexivity|].
    erewrite bind_ok; [|by eapply (getitem_new_dict _ objs 4)].
    by eapply setitem_new_dict.
  - unfold lookup_dict2.
    erewrite !(lookup_dict_ext_new _ _ 4)
      by (rewrite list_lookup_insert_ne by done; reflexivity).
    rewrite Hj. cbn [mbind option_bind].
    erewrite !(lookup_dict_ext_new _ _ j)
      by (apply list_lookup_insert_eq; by eapply lookup_lt_Some).
    split; [apply lookup_insert_eq|].
    by rewrite lookup_insert_ne.
Qed.

(** X9: an override with a sub key under [annotations] writes into the
    chart's own annotation list, the one [self.annotations] refers to:
    an index within the list replaces that annotation for good, any other
    index (every index, on the empty default) raises [IndexError]. *)
Theorem override_annotations_writes_chart σ self i al vs idx v :
  heap σ !! self = Some (OInst i) →
  wf_chart σ self = true →
  annotations_of σ i = VRef al →
  heap σ !! al = Some (OList vs) →
  layout_overrides i = [(KStr "annotations", Some (KInt idx), v)] →
  ∃ layout σ1,
    create_layout self σ = (Ok layout, σ1)
    ∧ match norm_index (length vs) idx with
      | Some n =>
          apply_custom_layout self layout σ1
          = (Ok layout, set_heap (<[al := OList (<[n := v]> vs)]> (heap σ1)) σ1)
      | None => apply_custom_layout self layout σ1 = (Raise IndexError, σ1)
      end.
Proof.
  intros Hi (i' & ll & dl & lx & ly & la & da & Hi' & Hl & Hll & Hx & Hy & Ha & Hla)%wf_chart_inv
    Hann Hal Ho.
  assert (i' = i) as -> by congruence.
  set (objs := layout_objects (length (heap σ)) (title i) lx ly (annotations_of σ i) da).
  exists (VRef (length (heap σ) + 4)), (ext σ objs).
  split; [by eapply create_layout_closed|].
  assert (py_getitem (VRef (length (heap σ) + 4)) (KStr "annotations") (ext σ objs)
          = (Ok (VRef al), ext σ objs)) as Hget.
  { eapply (getitem_new_dict _ objs 4); [reflexivity|]. by rewrite <- Hann. }
  unfold apply_custom_layout.
  rewrite (bind_ok _ _ _ _ _ (get_layout_overrides_ext _ _ _ _ Hi)), Ho.
  cbn [for_each apply_override].
  destruct (norm_index (length vs) idx) as [n|] eqn:En.
  - erewrite bind_ok; [reflexivity|].
    erewrite bind_ok; [reflexivity|].
    rewrite (bind_ok _ _ _ _ _ Hget). unfold py_setitem.
    rewrite (bind_ok _ _ _ _ _ (deref_ext_old _ objs _ _ Hal)). by rewrite En.
  - apply bind_raise, bind_raise.
    rewrite (bind_ok _ _ _ _ _ Hget). unfold py_setitem.
    rewrite (bind_ok _ _ _ _ _ (deref_ext_old _ objs _ _ Hal)). by rewrite En.
Qed.

(** ** The [axis_range] property *)

Lemma get_inst_inv σ self i σ' :
  get_inst self σ = (Ok i, σ') → heap σ !! self = Some (OInst i) ∧ σ' = σ.
Proof.
  unfold get_inst, deref, mbind, M_bind.
  destruct (heap σ !! self) as [[]|]; try done. by intros [= -> ->].
Qed.

(** Where the setter leaves the store: as it was, or with the binding of
    [_axis_range] on the instance. *)
Lemma axis_range_setter_state σ self v :
  (axis_range_setter self v σ).2 = σ
  ∨ ∃ i, heap σ !! self = Some (OInst i)
      ∧ (axis_range_setter self v σ).2
        = set_heap (<[self := OInst {| title := title i; labels := labels i;
                                         layout_overrides := layout_overrides i;
                                         inst_axis_range := Some v;
                                         inst_annotations := inst_annotations i |}]>
                      (heap σ)) σ.
Proof.
  unfold axis_range_setter.
  destruct (get_inst self σ) as [[i|e] σ1] eqn:Ei;
    [|left; rewrite (bind_raise _ _ _ _ _ Ei);
      by rewrite <- (pure_get_inst self σ), Ei].
  apply get_inst_inv in Ei as Hi. destruct Hi as [Hi ->].
  rewrite (bind_ok _ _ _ _ _ Ei).
  erewrite bind_ok by reflexivity.
  destruct (validate σ v _axis_range_schema) as [errs|e] eqn:Ev.
  - erewrite bind_ok by reflexivity.
    destruct (truthy errs); [by left|]. right. exists i. split; [done|].
    unfold set__axis_range. by rewrite (bind_ok _ _ _ _ _ Ei).
  - left. by erewrite bind_raise by reflexivity.
Qed.

(** X10: an assignment to [axis_range], accepted or not, touches at most the
    instance it is made on: no object is added, the class attributes and
    every other object are as before, and every other chart's [axis_range]
    reads as before. *)
Theorem axis_range_setter_frame σ self v :
  same_size σ (axis_range_setter self v σ).2
  ∧ (∀ a, a ≠ self → heap (axis_range_setter self v σ).2 !! a = heap σ !! a)
  ∧ (∀ b, b ≠ self →
       (axis_range b (axis_range_setter self v σ).2).1 = (axis_range b σ).1).
Proof.
  destruct (axis_range_setter_state σ self v) as [-> | (i & Hi & ->)]; [done|].
  split; [|split].
  - unfold same_size. simpl. by rewrite length_insert.
  - intros a Ha. simpl. by apply list_lookup_insert_ne.
  - intros b Hb. unfold axis_range, get__axis_range, get_inst, deref, mbind, M_bind.
    simpl. rewrite list_lookup_insert_ne by done.
    destruct (heap σ !! b) as [[| | |ib]|]; try done.
    unfold mret, M_ret. by destruct (inst_axis_range ib).
Qed.

(** X11: the default [axis_range] is one mapping for all charts.  An item
    assigned in place into what the getter returns, on a chart that never
    assigned [axis_range], goes unvalidated into the class-level mapping, and
    every other such chart reads it. *)
Theorem axis_range_default_shared σ a b ia ib c dc k v :
  heap σ !! a = Some (OInst ia) →
  heap σ !! b = Some (OInst ib) →
  inst_axis_range ia = None →
  inst_axis_range ib = None →
  cls_axis_range σ = VRef c →
  heap σ !! c = Some (ODict dc) →
  ∃ σ',
    assign_item_through_getter a b k v σ = (Ok (VRef c), σ')
    ∧ heap σ' !! c = Some (ODict (<[k := v]> dc))
    ∧ referent σ' (axis_range_of σ' ib) = Some (ODict (<[k := v]> dc)).
Proof.
  intros Ha Hb Hna Hnb Hc Hdc.
  assert (c ≠ a ∧ c ≠ b) as [Hca Hcb] by (split; congruence).
  exists (set_heap (<[c := ODict (<[k := v]> dc)]> (heap σ)) σ).
  assert (heap (set_heap (<[c := ODict (<[k := v]> dc)]> (heap σ)) σ) !! c
          = Some (ODict (<[k := v]> dc))) as Hc'.
  { simpl. apply list_lookup_insert_eq. by eapply lookup_lt_Some. }
  split; [|split; [done|]].
  - unfold assign_item_through_getter.
    assert (axis_range a σ = (Ok (VRef c), σ)) as Ea.
    { unfold axis_range, get__axis_range.
      rewrite (bind_ok _ _ _ _ _ (get_inst_plain _ _ _ Ha)), Hna.
      unfold fmap, M_fmap. erewrite bind_ok by reflexivity. by rewrite <- Hc. }
    rewrite (bind_ok _ _ _ _ _ Ea).
    rewrite (bind_ok _ _ _ _ _ (setitem_dict _ _ _ k v Hdc)).
    unfold axis_range, get__axis_range.
    erewrite bind_ok;
      [|apply get_inst_plain; simpl; rewrite list_lookup_insert_ne by done; exact Hb].
    rewrite Hnb. unfold fmap, M_fmap. erewrite bind_ok by reflexivity.
    simpl. by rewrite Hc.
  - unfold axis_range_of. rewrite Hnb. simpl. rewrite Hc. exact Hc'.
Qed.

(** X12: an accepted [axis_range] is what the next [create_layout] reads.
    After the setter has taken a mapping [v], each axis of the standard
    layout has [range = v[axis]] and no [autorange] when [v] has the axis,
    and [autorange = True] and no [range] when it has not. *)
Theorem axis_range_then_create_layout σ self i v :
  heap σ !! self = Some (OInst i) →
  wf_chart σ self = true →
  validate σ v _axis_range_schema = Ok [] →
  is_dict σ v = true →
  ∃ layout σ',
    (axis_range_setter self v ≫= λ _, create_layout self) σ = (Ok layout, σ')
    ∧ ∀ axis, axis = "x" ∨ axis = "y" →
        match lookup_dict σ v axis with
        | None =>
            lookup_dict2 σ' layout (axis +:+ "axis") "autorange" = Some (VBool true)
            ∧ lookup_dict2 σ' layout (axis +:+ "axis") "range" = None
        | Some r =>
            lookup_dict2 σ' layout (axis +:+ "axis") "range" = Some r
            ∧ lookup_dict2 σ' layout (axis +:+ "axis") "autorange" = None
        end.
Proof.
  intros Hi (i' & ll & dl & lx & ly & la & da & Hi' & Hl & Hll & Hx & Hy & Ha & Hla)%wf_chart_inv
    Hv (a & d & -> & Hd)%is_dict_true.
  assert (i' = i) as -> by congruence.
  destruct (axis_range_after_set σ self i (VRef a) Hi) as (σ1 & Hset & _ & Hσ1).
  assert (Hother : ∀ b db, heap σ !! b = Some (ODict db) → heap σ1 !! b = Some (ODict db)).
  { intros b db Hb. rewrite Hσ1. simpl. rewrite list_lookup_insert_ne by congruence. done. }
  assert (heap σ1 !! self
          = Some (OInst {| title := title i; labels := labels i;
                           layout_overrides := layout_overrides i;
                           inst_axis_range := Some (VRef a);
                           inst_annotations := inst_annotations i |})) as Hi1.
  { rewrite Hσ1. simpl. apply list_lookup_insert_eq. by eapply lookup_lt_Some. }
  eexists _, _. split.
  - erewrite bind_ok; [|by rewrite (axis_range_setter_ok σ self i _ Hi Hv)].
    eapply create_layout_closed; [exact Hi1 | exact Hl | by apply Hother | done | done
                                 | reflexivity | by apply Hother].
  - intros axis Hax.
    assert (lookup_dict σ (VRef a) axis = d !! KStr axis) as ->.
    { unfold lookup_dict. by rewrite Hd. }
    destruct Hax as [-> | ->].
    + rewrite !(layout_objects_read2 _ _ _ _ _ _ _ "xaxis" _ 1 _ eq_refl eq_refl eq_refl).
      unfold with_range. by destruct (d !! KStr "x").
    + rewrite !(layout_objects_read2 _ _ _ _ _ _ _ "yaxis" _ 2 _ eq_refl eq_refl eq_refl).
      unfold with_range. by destruct (d !! KStr "y").
Qed.

(** ** [__init__] *)

(** X13: a chart of a class that keeps the base hook, constructed in any
    state whose class-level [_axis_range] is a mapping, is a new object;
    the constructor changes no existing object and binds neither
    [_axis_range] nor [annotations] on the instance, which therefore read as
    the class attributes; and the chart's standard layout carries what the
    constructor was given: the title object built from [title], and
    [xlabel] and [ylabel] as the titles of the axes. *)
Theorem init_then_create_layout C title xlabel ylabel ovs σ :
  initialize_mutables C = initialize_mutables CustomChart →
  is_dict σ (cls_axis_range σ) = true →
  ∃ self σ1 layout σ2 ttl,
    __init__ C title xlabel ylabel ovs σ = (Ok self, σ1)
    ∧ heap σ !! self = None
    ∧ extends σ σ1
    ∧ get_layout_overrides self σ1 = (Ok ovs, σ1)
    ∧ axis_range self σ1 = (Ok (cls_axis_range σ), σ1)
    ∧ get_annotations self σ1 = (Ok (cls_annotations σ), σ1)
    ∧ create_layout self σ1 = (Ok layout, σ2)
    ∧ lookup_dict σ2 layout "title" = Some (VRef ttl)
    ∧ heap σ2 !! ttl = Some (ONative (go_layout_Title title))
    ∧ lookup_dict2 σ2 layout "xaxis" "title" = Some (VStr xlabel)
    ∧ lookup_dict2 σ2 layout "yaxis" "title" = Some (VStr ylabel).
Proof.
  intros Hhook (la & da & Hla & Hda)%is_dict_true.
  set (inst := {| title := title; labels := VRef (length (heap σ) + 0);
                  layout_overrides := ovs;
                  inst_axis_range := None; inst_annotations := None |}).
  set (objs := [ODict (dict_of [("x", VStr xlabel); ("y", VStr ylabel)]); OInst inst]
               : list obj).
  assert (heap (ext σ objs) !! (length (heap σ) + 1)%nat = Some (OInst inst)) as Hi
    by (by rewrite heap_ext_new).
  assert (__init__ C title xlabel ylabel ovs σ = (Ok (length (heap σ) + 1)%nat, ext σ objs)) as Einit.
  { unfold __init__. rewrite <- (ext_nil σ) at 1.
    rewrite (bind_ok _ _ _ _ _ (alloc_ext _ _ _)).
    rewrite (bind_ok _ _ _ _ _ (alloc_ext _ _ _)).
    by rewrite Hhook. }
  assert (create_layout (length (heap σ) + 1)%nat (ext σ objs)
          = (Ok (VRef (length (heap (ext σ objs)) + 4)),
             ext (ext σ objs)
               (layout_objects (length (heap (ext σ objs))) title
                  (VStr xlabel) (VStr ylabel) (cls_annotations σ) da))) as Elay.
  { eapply (create_layout_closed (ext σ objs) (length (heap σ) + 1) inst (length (heap σ) + 0));
      [exact Hi | reflexivity | by rewrite heap_ext_new | reflexivity | reflexivity
      | exact Hla |].
    unfold ext, set_heap. simpl.
    rewrite lookup_app_l by (by eapply lookup_lt_Some). done. }
  eexists (length (heap σ) + 1)%nat, (ext σ objs), _, _, (length (heap (ext σ objs)) + 0)%nat.
  split; [exact Einit|].
  split; [apply lookup_ge_None; lia|].
  split; [by exists objs|].
  split; [by rewrite <- (ext_nil (ext σ objs)), (get_layout_overrides_ext _ _ _ _ Hi), ext_nil|].
  split; [by rewrite <- (ext_nil (ext σ objs)), (axis_range_ext _ _ _ _ Hi), ext_nil|].
  split; [by rewrite <- (ext_nil (ext σ objs)), (get_annotations_ext _ _ _ _ Hi), ext_nil|].
  split; [exact Elay|].
  erewrite !(lookup_dict_ext_new _ _ 4) by reflexivity. rewrite !heap_ext_new.
  rewrite !(layout_objects_read2 _ _ _ _ _ _ _ "xaxis" _ 1 _ eq_refl eq_refl eq_refl).
  rewrite !(layout_objects_read2 _ _ _ _ _ _ _ "yaxis" _ 2 _ eq_refl eq_refl eq_refl).
  rewrite Nat.add_0_r.
  repeat split; try done; unfold with_range.
  - by destruct (da !! KStr "x").
  - by destruct (da !! KStr "y").
Qed.

(** ** [create_figure] *)

Lemma lookup_dict_extends σ σ' v k w :
  extends σ σ' → lookup_dict σ v k = Some w → lookup_dict σ' v k = Some w.
Proof. intros [l ->]. apply lookup_dict_ext_old. Qed.

Lemma wf_chart_extends σ σ' self :
  extends σ σ' → wf_chart σ self = true → wf_chart σ' self = true.
Proof.
  intros Hext Hwf.
  destruct (wf_chart_inv _ _ Hwf)
    as (i & ll & dl & lx & ly & la & da & Hi & Hl & Hll & Hx & Hy & Ha & Hla).
  unfold wf_chart. rewrite (extends_lookup _ _ _ _ Hext Hi).
  assert (axis_range_of σ' i = axis_range_of σ i) as -> by (by destruct Hext as [l ->]).
  rewrite Hl, Ha. unfold lookup_dict, is_dict.
  rewrite (extends_lookup _ _ _ _ Hext Hll), (extends_lookup _ _ _ _ Hext Hla), Hx, Hy.
  rewrite !bool_decide_true; eauto.
Qed.

(** X14: with no overrides, on a chart of the data model, once
    [create_traces] has returned its data and left the existing objects
    alone, [create_figure] builds the standard layout, hands it unpatched to
    [go.Layout], and returns a new mapping [{data, layout}] when [go.Layout]
    accepts it; when [go.Layout] rejects it, its exception is the outcome of
    the call. *)
Theorem create_figure_no_overrides C self df_raw kwargs_data σ i data σ1 :
  heap σ !! self = Some (OInst i) →
  wf_chart σ self = true →
  layout_overrides i = [] →
  create_traces C self df_raw kwargs_data σ = (Ok data, σ1) →
  extends σ σ1 →
  ∃ σ2,
    create_layout self σ1 = (Ok (VRef (length (heap σ1) + 4)), σ2)
    ∧ match go_Layout σ2 (VRef (length (heap σ1) + 4)) with
      | Ok n =>
          create_figure C self df_raw kwargs_data σ
          = (Ok (VRef (length (heap σ2) + 1)),
             ext σ2 [ONative n;
                     ODict (dict_of [("data", data);
                                     ("layout", VRef (length (heap σ2) + 0))])])
      | Raise e => create_figure C self df_raw kwargs_data σ = (Raise e, σ2)
      end.
Proof.
  intros Hi Hwf Ho Ht Hext.
  pose proof (extends_lookup _ _ _ _ Hext Hi) as Hi1.
  destruct (wf_chart_inv _ _ (wf_chart_extends _ _ _ Hext Hwf))
    as (i' & ll & dl & lx & ly & la & da & Hi' & Hl & Hll & Hx & Hy & Ha & Hla).
  assert (i' = i) as -> by congruence.
  pose proof (create_layout_closed _ _ _ _ _ _ _ _ _ Hi1 Hl Hll Hx Hy Ha Hla) as El.
  eexists. split; [exact El|].
  match type of El with _ = (_, ?s) => set (σ2 := s) in * end.
  assert (apply_custom_layout self (VRef (length (heap σ1) + 4)) σ2
          = (Ok (VRef (length (heap σ1) + 4)), σ2)) as Ea.
  { unfold apply_custom_layout, σ2.
    by rewrite (bind_ok _ _ _ _ _ (get_layout_overrides_ext _ _ _ _ Hi1)), Ho. }
  unfold create_figure.
  rewrite (bind_ok _ _ _ _ _ Ht), (bind_ok _ _ _ _ _ El), (bind_ok _ _ _ _ _ Ea).
  erewrite bind_ok by reflexivity.
  destruct (go_Layout σ2 (VRef (length (heap σ1) + 4))) as [n|e].
  - erewrite bind_ok by reflexivity.
    rewrite <- (ext_nil σ2) at 1.
    rewrite (bind_ok _ _ _ _ _ (alloc_ext _ _ _)).
    by rewrite (bind_ok _ _ _ _ _ (alloc_ext _ _ _)).
  - by erewrite bind_raise by reflexivity.
Qed.

End Properties.

(** * The properties on the example charts *)

#[local] Existing Instance reference.

Example sales_state_heap :
  heap (sales_state []) !! 3%nat
  = Some (OInst {| title := "Sales"; labels := VRef 2; layout_overrides := [];
                   inst_axis_range := None; inst_annotations := None |}).
Proof. reflexivity. Qed.

Example aliased_state_heap :
  heap aliased_state
  = [ OList []; ODict ∅; ODict (dict_of [("x", VFloat 0.5)]);
      ODict (dict_of [("x", VStr "Date"); ("y", VStr "Units")]);
      OInst {| title := "Sales"; labels := VRef 3;
               layout_overrides := [(KStr "legend", None, VRef 2);
                                    (KStr "legend", Some (KStr "y"), VFloat (-0.1))];
               inst_axis_range := None; inst_annotations := None |} ].
Proof. reflexivity. Qed.

(** C4 on the chart with [axis_range = {"x": [0, 10]}]: a range on the x
    axis, autorange on the y axis. *)
Lemma create_layout_axis_range_witness :
  wf_chart ranged_state 3 = true
  ∧ ∃ layout σ',
      create_layout 3 ranged_state = (Ok layout, σ')
      ∧ (∀ axis, axis = "x" ∨ axis = "y" →
          match lookup_dict ranged_state (VRef 5) axis with
          | None =>
              lookup_dict2 σ' layout (axis +:+ "axis") "autorange" = Some (VBool true)
              ∧ lookup_dict2 σ' layout (axis +:+ "axis") "range" = None
          | Some r =>
              lookup_dict2 σ' layout (axis +:+ "axis") "range" = Some r
              ∧ lookup_dict2 σ' layout (axis +:+ "axis") "autorange" = None
          end)
      ∧ lookup_dict2 σ' layout "yaxis" "zeroline" = Some (VBool true).
Proof.
  split; [reflexivity|].
  exact (create_layout_axis_range ranged_state 3 _ eq_refl eq_refl).
Defined.

(** C9 on the Sales chart. *)
Lemma create_layout_defaults_witness :
  wf_chart (sales_state []) 3 = true
  ∧ ∃ layout σ' lg ttl,
      create_layout 3 (sales_state []) = (Ok layout, σ')
      ∧ lookup_dict σ' layout "legend" = Some (VRef lg)
      ∧ heap σ' !! lg
        = Some (ODict (dict_of [("orientation", VStr "h"); ("y", VFloat (-0.25))]))
      ∧ lookup_dict σ' layout "hovermode" = Some (VStr "closest")
      ∧ lookup_dict σ' layout "title" = Some (VRef ttl)
      ∧ heap σ' !! ttl = Some (ONative (PTitle (VStr "Sales")))
      ∧ lookup_dict2 σ' layout "xaxis" "automargin" = Some (VBool true)
      ∧ lookup_dict2 σ' layout "xaxis" "title" = Some (VStr "Date").
Proof.
  split; [reflexivity|].
  exact (create_layout_defaults (sales_state []) 3 _ eq_refl eq_refl).
Defined.

(** C2 as stated fails: [{"y": ["a", "b"]}] has one of the two keys and two
    string bounds, and the setter rejects it, the schema permitting only
    integers and floats under ["y"]. *)
Lemma axis_range_setter_rejects_string_y :
  spec_valid (with_axis_range_literal "y" (VStr "a") (VStr "b")) (VRef 5) = true
  ∧ axis_range_setter 3 (VRef 5) (with_axis_range_literal "y" (VStr "a") (VStr "b"))
    = (Raise (RuntimeError
                ("Validation of self.axis_range failed: "
                 +:+ "item is not of a permitted type; item is not of a permitted type")),
       with_axis_range_literal "y" (VStr "a") (VStr "b")).
Proof. split; reflexivity. Qed.

(** C2 (amended) on [{"x": [0, 10]}]. *)
Lemma axis_range_setter_accepts_witness :
  schema_valid (with_axis_range_literal "x" (VInt 0) (VInt 10)) (VRef 5) = true
  ∧ ∃ σ',
      axis_range_setter 3 (VRef 5) (with_axis_range_literal "x" (VInt 0) (VInt 10))
      = (Ok tt, σ')
      ∧ axis_range 3 σ' = (Ok (VRef 5), σ')
      ∧ (∀ a, a ≠ 3%nat →
           heap σ' !! a = heap (with_axis_range_literal "x" (VInt 0) (VInt 10)) !! a)
      ∧ schema_valid σ' (VRef 5) = true.
Proof.
  split; [reflexivity|].
  exact (axis_range_setter_accepts (with_axis_range_literal "x" (VInt 0) (VInt 10))
           3 _ (VRef 5) eq_refl eq_refl eq_refl).
Defined.

(** C3 on [{"y": ["a", "b"]}]: rejected, and the getter still returns the
    class-level default. *)
Lemma axis_range_setter_rejects_witness :
  let σ := with_axis_range_literal "y" (VStr "a") (VStr "b") in
  let errs := [(KStr "y", "item is not of a permitted type");
               (KStr "y", "item is not of a permitted type")] in
  validate σ (VRef 5) _axis_range_schema = Ok errs
  ∧ errs ≠ []
  ∧ axis_range_setter 3 (VRef 5) σ
    = (Raise (RuntimeError ("Validation of self.axis_range failed: " +:+ format_errors errs)), σ)
  ∧ axis_range 3 (axis_range_setter 3 (VRef 5) σ).2 = axis_range 3 σ.
Proof.
  intros σ errs.
  assert (errs ≠ []) as Hne by discriminate.
  split; [reflexivity|]. split; [exact Hne|].
  exact (axis_range_setter_rejects σ 3 _ (VRef 5) errs eq_refl eq_refl Hne).
Defined.

(** C5 on the Sales chart: [data] is the three-point list, [layout] the
    plotly object built from the patched standard layout. *)
Lemma create_figure_composes_witness :
  ∃ fig lay d σ',
    create_figure SalesChart 3 VNone [] (sales_state []) = (Ok (VRef fig), σ')
    ∧ heap σ' !! fig = Some (ODict d)
    ∧ dom d = {[KStr "data"; KStr "layout"]}
    ∧ d !! KStr "data" = Some (VRef 4)
    ∧ d !! KStr "layout" = Some (VRef lay)
    ∧ heap σ' !! 4%nat = Some (OList [VInt 1; VInt 2; VInt 3])
    ∧ ∃ n, heap σ' !! lay = Some (ONative n).
Proof.
  destruct (create_figure_composes SalesChart 3 VNone [] (sales_state [])
              (VRef 4) _ _ _ _ _ _ eq_refl eq_refl eq_refl eq_refl)
    as (fig & lay & d & σ' & E & Hfig & Hdom & Hdata & Hlayout & Hlay & Hσ').
  exists fig, lay, d, σ'. repeat split; try done.
  - by rewrite Hσ'.
  - by eexists.
Defined.

(** C8 on the Sales chart with the one override. *)
Lemma apply_custom_layout_legend_y_witness :
  let σ := sales_state [(KStr "legend", Some (KStr "y"), VFloat (-0.1))] in
  wf_chart σ 3 = true
  ∧ ∃ layout σ1 σ2 lg d,
      create_layout 3 σ = (Ok layout, σ1)
      ∧ apply_custom_layout 3 layout σ1 = (Ok layout, σ2)
      ∧ lookup_dict σ1 layout "legend" = Some (VRef lg)
      ∧ heap σ1 !! lg = Some (ODict d)
      ∧ σ2 = set_heap (<[lg := ODict (<[KStr "y" := VFloat (-0.1)]> d)]> (heap σ1)) σ1
      ∧ lookup_dict2 σ2 layout "legend" "y" = Some (VFloat (-0.1))
      ∧ lookup_dict2 σ2 layout "legend" "orientation" = Some (VStr "h").
Proof.
  intros σ. split; [reflexivity|].
  exact (apply_custom_layout_legend_y σ 3 _ eq_refl eq_refl eq_refl).
Defined.

(** C7 on the Sales chart with the override [("shapes", "x", 1)]:
    [create_layout] has no key [shapes], so [apply_custom_layout] and the
    [create_figure] call around it raise [KeyError]. *)
Lemma apply_custom_layout_missing_parent_witness :
  let σ0 := sales_state [(KStr "shapes", Some (KStr "x"), VInt 1)] in
  let σ := (create_layout 3 (create_traces SalesChart 3 VNone [] σ0).2).2 in
  lookup_dict σ (VRef 9) "shapes" = None
  ∧ apply_custom_layout 3 (VRef 9) σ = (Raise (KeyError (KStr "shapes")), σ)
  ∧ create_figure SalesChart 3 VNone [] σ0 = (Raise (KeyError (KStr "shapes")), σ).
Proof.
  intros σ0 σ.
  destruct (apply_custom_layout_missing_parent σ 3 _ [] (KStr "shapes") (KStr "x")
              (VInt 1) [] 9 σ _ eq_refl eq_refl eq_refl eq_refl eq_refl)
    as [Ha Hf].
  split; [reflexivity|]. split; [exact Ha|].
  exact (Hf SalesChart VNone [] σ0 (VRef 4) _ eq_refl eq_refl).
Defined.

(** C10 as stated fails: on the chart whose first override puts the caller's
    mapping under [legend] and whose second patches [legend.y],
    [create_traces] changes no object, yet after [create_figure] the value
    of the first override has the entry [y] it had not before. *)
Lemma create_figure_mutates_override_value :
  extends aliased_state (create_traces SalesChart 4 VNone [] aliased_state).2
  ∧ chart_closed aliased_state 4 = true
  ∧ first_override_y aliased_state 4 = None
  ∧ first_override_y (create_figure SalesChart 4 VNone [] aliased_state).2 4
    = Some (VFloat (-0.1))
  ∧ chart_view (create_figure SalesChart 4 VNone [] aliased_state).2 4
    ≠ chart_view aliased_state 4.
Proof.
  split; [by exists [OList [VInt 1; VInt 2; VInt 3]]|].
  split; [reflexivity|]. split; [reflexivity|]. split; [reflexivity|].
  intros E.
  apply (f_equal (λ view,
           match view with
           | Some (_, _, (_, Some (ODict d)) :: _, _, _) => d !! KStr "y"
           | _ => None
           end)) in E.
  vm_compute in E. discriminate E.
Qed.

(** C10 (amended) on a chart whose [create_traces] appends to the data it
    is given: that list changes, the chart does not, and nothing that
    exists after [create_traces] is changed by the rest of the call. *)
Lemma create_figure_frame_witness :
  let σ := tally_state in
  let σ1 := (create_traces TallyChart 3 (VRef 4) [] σ).2 in
  let σ' := (create_figure TallyChart 3 (VRef 4) [] σ).2 in
  sub_keys_on_fresh [] [(KStr "legend", Some (KStr "y"), VFloat (-0.1));
                        (KStr "title", None, VStr "New Title")] = true
  ∧ heap σ !! 4%nat = Some (OList [VInt 1; VInt 2; VInt 3])
  ∧ heap σ1 !! 4%nat = Some (OList [VInt 1; VInt 2; VInt 3; VInt 4])
  ∧ chart_view σ1 3 = chart_view σ 3
  ∧ chart_closed σ 3 = true
  ∧ extends σ1 σ'
  ∧ chart_view σ' 3 = chart_view σ 3.
Proof.
  intros σ σ1 σ'.
  destruct (create_figure_frame (H := reference) TallyChart 3 (VRef 4) [] σ _
              eq_refl eq_refl)
    as [Hext Hview].
  split; [reflexivity|]. split; [reflexivity|]. split; [reflexivity|].
  split; [reflexivity|]. split; [reflexivity|].
  split; [exact Hext | exact (Hview eq_refl eq_refl)].
Defined.

(** * The further properties on the example charts *)

(** X2 on [("title", None, "Draft")] then [("title", None, "New Title")],
    and [("shapes", None, None)], a key the layout does not have. *)
Lemma apply_custom_layout_wholesale_witness :
  let ovs := [(KStr "title", None, VStr "Draft");
              (KStr "shapes", None, VNone);
              (KStr "title", None, VStr "New Title")] in
  let σ := sales_layout_state ovs in
  wholesale ovs = true
  ∧ ∃ σ',
      apply_custom_layout 3 (VRef 8) σ = (Ok (VRef 8), σ')
      ∧ lookup_dict σ' (VRef 8) "title" = Some (VStr "New Title")
      ∧ lookup_dict σ' (VRef 8) "shapes" = Some VNone
      ∧ lookup_dict σ' (VRef 8) "legend" = Some (VRef 7).
Proof.
  intros ovs σ. split; [reflexivity|].
  destruct (apply_custom_layout_wholesale (H := reference) σ 3 _ 8 _ eq_refl eq_refl eq_refl)
    as (E & _ & _).
  eexists. split; [exact E|]. by repeat split.
Defined.

(** X3 on [("hovermode", "x", 1)]: [hovermode] is a string. *)
Lemma apply_custom_layout_scalar_parent_witness :
  let σ := sales_layout_state [(KStr "hovermode", Some (KStr "x"), VInt 1)] in
  lookup_dict σ (VRef 8) "hovermode" = Some (VStr "closest")
  ∧ apply_custom_layout 3 (VRef 8) σ = (Raise TypeError, σ).
Proof.
  intros σ. split; [reflexivity|].
  exact (apply_custom_layout_scalar_parent (H := reference) σ 3 _ [] (KStr "hovermode") (KStr "x")
           (VInt 1) [] 8 σ _ (VStr "closest") eq_refl eq_refl eq_refl eq_refl eq_refl
           eq_refl).
Defined.

(** X4 on two patches of [legend.y]: the second decides. *)
Lemma apply_custom_layout_sub_key_witness :
  let σ := sales_layout_state [(KStr "legend", Some (KStr "y"), VFloat (-0.1));
                               (KStr "legend", Some (KStr "y"), VFloat (-0.3))] in
  ∃ σ',
    apply_custom_layout 3 (VRef 8) σ = (Ok (VRef 8), σ')
    ∧ lookup_dict2 σ' (VRef 8) "legend" "y" = Some (VFloat (-0.3))
    ∧ lookup_dict2 σ' (VRef 8) "legend" "orientation" = Some (VStr "h").
Proof.
  intros σ.
  eexists. split.
  - exact (apply_custom_layout_sub_key (H := reference) σ 3 _
             [(KStr "legend", Some (KStr "y"), VFloat (-0.1))]
             (KStr "legend") (KStr "y") (VFloat (-0.3)) 8 _ _ 7 _
             eq_refl eq_refl eq_refl eq_refl eq_refl eq_refl).
  - by split.
Defined.

(** X6 on the Sales chart. *)
Lemma create_layout_shape_witness :
  wf_chart (sales_state []) 3 = true
  ∧ ∃ layout σ' d,
      create_layout 3 (sales_state []) = (Ok layout, σ')
      ∧ referent σ' layout = Some (ODict d)
      ∧ dom d = {[KStr "annotations"; KStr "title"; KStr "xaxis"; KStr "yaxis";
                  KStr "legend"; KStr "hovermode"]}
      ∧ d !! KStr "annotations" = Some (VRef 0)
      ∧ lookup_dict2 σ' layout "yaxis" "automargin" = Some (VBool true)
      ∧ lookup_dict2 σ' layout "yaxis" "title" = Some (VStr "Units").
Proof.
  split; [reflexivity|].
  exact (create_layout_shape (H := reference) (sales_state []) 3 _ eq_refl eq_refl).
Defined.

(** X7 on the Sales chart without its ["x"] label. *)
Lemma create_layout_missing_label_witness :
  lookup_dict unlabelled_state (VRef 2) "x" = None
  ∧ (create_layout 3 unlabelled_state).1 = Raise (KeyError (KStr "x")).
Proof.
  split; [reflexivity|].
  exact (proj1 (create_layout_missing_label (H := reference) unlabelled_state 3 _ 2 _
                  eq_refl eq_refl eq_refl) eq_refl).
Defined.

(** X8 on the Sales chart with [("xaxis", "range", [0, 10])]. *)
Lemma override_range_keeps_autorange_witness :
  wf_chart range_override_state 4 = true
  ∧ ∃ layout σ',
      (create_layout 4 ≫= apply_custom_layout 4) range_override_state = (Ok layout, σ')
      ∧ lookup_dict2 σ' layout "xaxis" "range" = Some (VRef 2)
      ∧ lookup_dict2 σ' layout "xaxis" "autorange" = Some (VBool true).
Proof.
  split; [reflexivity|].
  exact (override_range_keeps_autorange (H := reference) range_override_state 4 _ "x" (VRef 2)
           eq_refl eq_refl (or_introl eq_refl) eq_refl eq_refl).
Defined.

(** X9 on the chart with the one annotation ["old"]: index 0 replaces it
    in the class-level list, index 1 is out of range. *)
Lemma override_annotations_writes_chart_witness :
  (∃ layout σ1 σ2,
     create_layout 3 (annotated_state 0) = (Ok layout, σ1)
     ∧ apply_custom_layout 3 layout σ1 = (Ok layout, σ2)
     ∧ heap (annotated_state 0) !! 0%nat = Some (OList [VStr "old"])
     ∧ heap σ2 !! 0%nat = Some (OList [VStr "new"]))
  ∧ (∃ layout σ1,
       create_layout 3 (annotated_state 1) = (Ok layout, σ1)
       ∧ apply_custom_layout 3 layout σ1 = (Raise IndexError, σ1)).
Proof.
  split.
  - destruct (override_annotations_writes_chart (H := reference) (annotated_state 0) 3 _ 0 [VStr "old"] 0
                (VStr "new") eq_refl eq_refl eq_refl eq_refl eq_refl)
      as (layout & σ1 & El & Ea).
    exists layout, σ1. eexists. split; [exact El|]. split; [exact Ea|]. split; [reflexivity|].
    simpl. apply list_lookup_insert_eq.
    pose proof (f_equal (λ p, length (heap p.2)) El) as Hlen.
    simpl in Hlen. rewrite <- Hlen. vm_compute. lia.
  - destruct (override_annotations_writes_chart (H := reference) (annotated_state 1) 3 _ 0 [VStr "old"] 1
                (VStr "new") eq_refl eq_refl eq_refl eq_refl eq_refl)
      as (layout & σ1 & El & Ea).
    by exists layout, σ1.
Defined.

(** X11 on two Sales charts: [a.axis_range["z"] = [5]]-like, unvalidated,
    is read through [b]. *)
Lemma axis_range_default_shared_witness :
  ∃ σ',
    assign_item_through_getter 3 5 (KStr "z") (VInt 5) two_charts_state
    = (Ok (VRef 1), σ')
    ∧ heap two_charts_state !! 1%nat = Some (ODict ∅)
    ∧ heap σ' !! 1%nat = Some (ODict (<[KStr "z" := VInt 5]> ∅))
    ∧ referent σ' (cls_axis_range σ') = Some (ODict (<[KStr "z" := VInt 5]> ∅)).
Proof.
  destruct (axis_range_default_shared (H := reference) two_charts_state 3 5 _ _ 1 ∅
              (KStr "z") (VInt 5) eq_refl eq_refl eq_refl eq_refl eq_refl eq_refl)
    as (σ' & E & Hc & Hb).
  exists σ'. by repeat split.
Defined.

(** X12 on [{"x": [0, 10]}]: a range on the x axis, autorange on the y axis. *)
Lemma axis_range_then_create_layout_witness :
  let σ := with_axis_range_literal "x" (VInt 0) (VInt 10) in
  wf_chart σ 3 = true
  ∧ validate σ (VRef 5) _axis_range_schema = Ok []
  ∧ ∃ layout σ',
      (axis_range_setter 3 (VRef 5) ≫= λ _, create_layout 3) σ = (Ok layout, σ')
      ∧ lookup_dict2 σ' layout "xaxis" "range" = Some (VRef 4)
      ∧ lookup_dict2 σ' layout "xaxis" "autorange" = None
      ∧ lookup_dict2 σ' layout "yaxis" "autorange" = Some (VBool true)
      ∧ lookup_dict2 σ' layout "yaxis" "range" = None.
Proof.
  intros σ. split; [reflexivity|]. split; [reflexivity|].
  destruct (axis_range_then_create_layout (H := reference) σ 3 _ (VRef 5)
              eq_refl eq_refl eq_refl eq_refl)
    as (layout & σ' & E & Hax).
  exists layout, σ'. split; [exact E|].
  pose proof (Hax "x" (or_introl eq_refl)) as [Hx1 Hx2].
  pose proof (Hax "y" (or_intror eq_refl)) as [Hy1 Hy2].
  by repeat split.
Defined.

(** X13 on the Sales chart, constructed right after the module is loaded. *)
Lemma init_then_create_layout_witness :
  ∃ σ1 layout σ2 ttl,
    __init__ SalesChart "Sales" "Date" "Units" [] module_state = (Ok 3%nat, σ1)
    ∧ axis_range 3 σ1 = (Ok (VRef 1), σ1)
    ∧ get_annotations 3 σ1 = (Ok (VRef 0), σ1)
    ∧ create_layout 3 σ1 = (Ok layout, σ2)
    ∧ lookup_dict σ2 layout "title" = Some (VRef ttl)
    ∧ heap σ2 !! ttl = Some (ONative (PTitle (VStr "Sales")))
    ∧ lookup_dict2 σ2 layout "xaxis" "title" = Some (VStr "Date")
    ∧ lookup_dict2 σ2 layout "yaxis" "title" = Some (VStr "Units").
Proof.
  destruct (init_then_create_layout (H := reference) SalesChart "Sales" "Date" "Units" []
              module_state eq_refl eq_refl)
    as (self & σ1 & layout & σ2 & ttl & Ei & _ & _ & _ & Ha & Hn & El & Ht & Htt & Hx & Hy).
  assert (self = 3%nat) as -> by (by injection Ei).
  exists σ1, layout, σ2, ttl. by repeat split.
Defined.

(** X14 on the Sales chart: the figure is the object at location 11, its
    data the three-point list at 4, its layout the plotly object at 10. *)
Lemma create_figure_no_overrides_witness :
  wf_chart (sales_state []) 3 = true
  ∧ ∃ σ' n,
      create_figure SalesChart 3 VNone [] (sales_state []) = (Ok (VRef 11), σ')
      ∧ heap σ' !! 11%nat
        = Some (ODict (dict_of [("data", VRef 4); ("layout", VRef 10)]))
      ∧ heap σ' !! 4%nat = Some (OList [VInt 1; VInt 2; VInt 3])
      ∧ heap σ' !! 10%nat = Some (ONative (PLayout n))
      ∧ n !! KStr "hovermode" = Some (VStr "closest").
Proof.
  split; [reflexivity|].
  destruct (create_figure_no_overrides (H := reference) SalesChart 3 VNone []
              (sales_state []) _ (VRef 4) _ eq_refl eq_refl eq_refl eq_refl
              (ex_intro _ [OList [VInt 1; VInt 2; VInt 3]] eq_refl))
    as (σ2 & El & Ef).
  pose proof (f_equal snd El) as E2. cbn [snd] in E2. subst σ2.
  vm_compute in Ef.
  eexists _, _. split; [exact Ef|]. by repeat split.
Defined.
